(** * prepare-commit-msg/add-jira-to-commit-body.py

    A shallow embedding of the git hook that appends a [Ticket: <ID>] line to
    the commit message, and the properties of its three layers:

    - the text primitives of Python that the hook uses ([in] on [str],
      slicing, [re.search] with the two patterns of the script);
    - the pure functions [_get_ticket_from_branch], [_add_ticket_details]
      and [_add_ticket_to_commit];
    - [main] and [_get_branch], which read [argv], run git, and read and
      write the commit-message file.  They are written in a small
      state-and-exception monad over the file system and an event trace.

    Python [str] is modelled by [string], as its UTF-8 bytes; [bytes] is a
    [string] too, and [bytes.decode()] is the check that the bytes are
    well-formed UTF-8.  The two characters the hook inspects ('#' and the
    line feed) and the digits are ASCII, so searching on the UTF-8 bytes and
    on the code points agree. *)

From Stdlib Require Import Ascii String List ZArith Lia Bool.
From stdpp Require Import gmap strings.

Local Open Scope stdpp_scope.

(** Let [simpl] compute the append of strings whose head is known. *)
Local Arguments String.append !s1 s2 : simpl nomatch.

(** ** Python text primitives *)

Module Py.

(** The line feed, ['\n']. *)
Definition LF : ascii := "010"%char.
Definition NL : string := String LF "".

Definition HASH : ascii := "#"%char.

(** [s.startswith(p)]. *)
Fixpoint startswith (s p : string) {struct p} : bool :=
  match p, s with
  | EmptyString, _ => true
  | String a p', String b s' => if Ascii.eqb a b then startswith s' p' else false
  | String _ _, EmptyString => false
  end.

(** [needle in hay] on [str]: does [needle] occur as a substring? *)
Fixpoint str_in (needle hay : string) : bool :=
  if startswith hay needle then true
  else match hay with
       | EmptyString => false
       | String _ hay' => str_in needle hay'
       end.

(** [s[:k]]; like Python's slice it stops at the end of [s]. *)
Fixpoint slice_to (k : nat) (s : string) : string :=
  match k, s with
  | S k', String c s' => String c (slice_to k' s')
  | _, _ => EmptyString
  end.

(** [s[k:]]. *)
Fixpoint slice_from (k : nat) (s : string) : string :=
  match k, s with
  | S k', String _ s' => slice_from k' s'
  | _, _ => s
  end.

(** [re.search("^#", s, flags=re.MULTILINE)], as the start offset of the
    match.  In multi-line mode [^] matches at offset 0 and right after
    every line feed; [bol] says whether the scan is at such a place and
    [pos] is the offset of the head of [s] in the whole text. *)
Fixpoint search_hash_from (bol : bool) (pos : nat) (s : string) : option nat :=
  match s with
  | EmptyString => None
  | String c s' =>
      if bol && Ascii.eqb c HASH then Some pos
      else search_hash_from (Ascii.eqb c LF) (S pos) s'
  end.

Definition re_search_comment (s : string) : option nat :=
  search_hash_from true 0 s.

(** The character class [[0-9]]. *)
Definition is_digit (c : ascii) : bool :=
  (48 <=? nat_of_ascii c)%nat && (nat_of_ascii c <=? 57)%nat.

(** The longest run of digits at the head of [s]: what a greedy [[0-9]*]
    consumes. *)
Fixpoint digit_run (s : string) : string :=
  match s with
  | String c s' => if is_digit c then String c (digit_run s') else EmptyString
  | EmptyString => EmptyString
  end.

(** [s] without its prefix [p], when it has that prefix. *)
Fixpoint strip_prefix (p s : string) {struct p} : option string :=
  match p, s with
  | EmptyString, _ => Some s
  | String a p', String b s' => if Ascii.eqb a b then strip_prefix p' s' else None
  | String _ _, EmptyString => None
  end.

(** The pattern [re.escape(label) + "-[0-9]+"] tried at the head of [s].
    [re.escape] makes every character of [label] stand for itself; the
    digits are matched greedily and nothing follows them in the pattern,
    so the match is the label, the dash and the whole run of digits. *)
Definition match_ticket_here (label s : string) : option string :=
  match strip_prefix (label +:+ "-") s with
  | Some rest =>
      match digit_run rest with
      | EmptyString => None
      | ds => Some (label +:+ "-" +:+ ds)
      end
  | None => None
  end.

(** [re.search(f"{re.escape(label)}-[0-9]+", s)] followed by [.group(0)]:
    the pattern is tried at offset 0, 1, ... and the first offset where it
    matches wins. *)
Fixpoint re_search_ticket (label s : string) : option string :=
  match match_ticket_here label s with
  | Some m => Some m
  | None =>
      match s with
      | EmptyString => None
      | String _ s' => re_search_ticket label s'
      end
  end.

End Py.

(** ** The pure part of the hook *)

Definition TICKET_LABELS : list string := ["FOO"; "BAR"].
Definition TICKET_PREFIX : string := "Ticket: ".

(** A commit source is [Optional[str]]: [None] or a tag. *)
Definition source_eqb (a b : option string) : bool :=
  match a, b with
  | None, None => true
  | Some x, Some y => String.eqb x y
  | _, _ => false
  end.

(** [x in t] for a tuple [t] of sources. *)
Definition source_in (x : option string) (t : list (option string)) : bool :=
  existsb (source_eqb x) t.

Definition SUPPORTED_SOURCES : list (option string) :=
  [None; Some "message"; Some "template"; Some "commit"].

Definition _AVAILABLE_SOURCES : list (option string) :=
  [None; Some "message"; Some "template"; Some "merge"; Some "squash"; Some "commit"].

Definition _add_ticket_details
    (commit_content ticket_string : string) (commit_source : option string) : string :=
  match Py.re_search_comment commit_content with
  | Some comment_location =>
      let commit_text := Py.slice_to comment_location commit_content in
      let commit_comments := Py.slice_from comment_location commit_content in
      let ticket_string := Py.NL +:+ ticket_string +:+ Py.NL in
      let ticket_string :=
        match commit_source with
        | None => ticket_string +:+ Py.NL
        | Some _ => ticket_string
        end in
      commit_text +:+ ticket_string +:+ commit_comments
  | None => commit_content +:+ (Py.NL +:+ ticket_string +:+ Py.NL)
  end.

Definition _add_ticket_to_commit
    (ticket : string) (commit_source : option string) (commit_content : string)
    : option string :=
  let ticket_string := TICKET_PREFIX +:+ ticket in
  if Py.str_in ticket_string commit_content then None
  else if source_eqb commit_source None
          || source_in commit_source [Some "message"; Some "commit"]
  then Some (_add_ticket_details commit_content ticket_string commit_source)
  else None.

Fixpoint _get_ticket_from_branch (branch : string) (labels : list string) : option string :=
  match labels with
  | [] => None
  | label :: labels' =>
      match Py.re_search_ticket label branch with
      | Some m => Some m
      | None => _get_ticket_from_branch branch labels'
      end
  end.

(** ** The world of the hook: files, git, the error stream *)

(** What running [git rev-parse --abbrev-ref HEAD] does: [Popen] raises
    [OSError] (with the text [e]), or the process exits with a return code
    and what it wrote to its two pipes.  The pipes hold bytes, one character
    of the [string] per byte; a pipe may be [None]. *)
Inductive git_outcome :=
| PopenFailed (e : string)
| Exited (returncode : Z) (stdout stderr : option string).

(** The exceptions that leave [main]: [argv[1]] on a short [argv];
    [bytes.decode()] on bytes that are not UTF-8; [open(path)] or [f.read()]
    on a file that is missing, may not be opened or does not decode;
    [open(path, "w")] on a file that may not be written. *)
Inductive exn :=
| IndexError
| UnicodeDecodeError
| FileReadError (path : string)
| FileWriteError (path : string).

(** What the hook does to the outside, in the order it does it.
    [Traceback] is what the interpreter writes to the error stream when an
    exception leaves [main]. *)
Inductive event :=
| RunGit (cmd : list string)
| PrintStderr (msg : string)
| ReadFile (path : string)
| WriteFile (path content : string)
| Traceback (e : exn).

(** [files] maps the path of every file that can be read as text (it is
    there, may be opened and decodes) to its content; [readonly] holds the
    paths that may not be opened for writing; [git] is the outcome a run of
    git has; [trace] is what happened so far. *)
Record world := World {
  files : gmap string string;
  readonly : gset string;
  git : git_outcome;
  trace : list event
}.

(** Computations that read and change the world and may raise. *)
Definition M (A : Type) : Type := world -> (A + exn) * world.

Definition ret {A} (a : A) : M A := fun w => (inl a, w).

Definition raise {A} (e : exn) : M A := fun w => (inr e, w).

Definition bind {A B} (c : M A) (k : A -> M B) : M B :=
  fun w =>
    match c w with
    | (inl a, w') => k a w'
    | (inr e, w') => (inr e, w')
    end.

Notation "x <- c ;; k" := (bind c (fun x => k))
  (at level 100, c at next level, right associativity).
Notation "c ;;; k" := (bind c (fun _ => k))
  (at level 100, right associativity).

(** The world after one more event. *)
Definition log (e : event) (w : world) : world :=
  World (files w) (readonly w) (git w) (trace w ++ [e]).

Definition emit (e : event) : M unit := fun w => (inl tt, log e w).

(** [l[i]] on a sequence. *)
Definition getitem {A} (l : list A) (i : nat) : M A :=
  match nth_error l i with
  | Some a => ret a
  | None => raise IndexError
  end.

(** [print(msg, file=sys.stderr)]. *)
Definition print_stderr (msg : string) : M unit := emit (PrintStderr msg).

(** [with open(path) as f: f.read()]. *)
Definition read_file (path : string) : M string :=
  fun w =>
    match files w !! path with
    | Some content => (inl content, log (ReadFile path) w)
    | None => (inr (FileReadError path), w)
    end.

(** [with open(path, "w") as f: f.write(content)]: the file is replaced
    by [content] as a whole, unless it may not be opened for writing. *)
Definition write_file (path content : string) : M unit :=
  fun w =>
    if bool_decide (path ∈ readonly w)
    then (inr (FileWriteError path), w)
    else (inl tt, World (<[path := content]> (files w)) (readonly w) (git w)
                        (trace w ++ [WriteFile path content])).

(** [subprocess.Popen(cmd, ...)] and [proc.communicate()] in one step. *)
Definition popen_communicate (cmd : list string) : M git_outcome :=
  fun w => (inl (git w), log (RunGit cmd) w).

(** [sep.join(l)]. *)
Fixpoint join (sep : string) (l : list string) : string :=
  match l with
  | [] => ""
  | [x] => x
  | x :: l' => x +:+ sep +:+ join sep l'
  end.

(** The byte [c] is between [lo] and [hi]. *)
Definition byte_in (lo hi : nat) (c : ascii) : bool :=
  (lo <=? nat_of_ascii c)%nat && (nat_of_ascii c <=? hi)%nat.

(** A continuation byte, [0x80..0xBF]. *)
Definition is_cont (c : ascii) : bool := byte_in 128 191 c.

(** The second byte that may follow the lead byte [b0] of a sequence of
    three bytes: no overlong form after [0xE0], no surrogate after [0xED]. *)
Definition second_of_three (b0 b1 : ascii) : bool :=
  if byte_in 224 224 b0 then byte_in 160 191 b1
  else if byte_in 237 237 b0 then byte_in 128 159 b1
  else is_cont b1.

(** The second byte that may follow the lead byte [b0] of a sequence of
    four bytes: no overlong form after [0xF0], nothing above U+10FFFF after
    [0xF4]. *)
Definition second_of_four (b0 b1 : ascii) : bool :=
  if byte_in 240 240 b0 then byte_in 144 191 b1
  else if byte_in 244 244 b0 then byte_in 128 143 b1
  else is_cont b1.

(** The bytes [b] are well-formed UTF-8: what the strict UTF-8 codec of
    [bytes.decode()] accepts. *)
Fixpoint utf8_valid (b : string) : bool :=
  match b with
  | EmptyString => true
  | String b0 r0 =>
      if byte_in 0 127 b0 then utf8_valid r0
      else
        match r0 with
        | EmptyString => false
        | String b1 r1 =>
            if byte_in 194 223 b0 then is_cont b1 && utf8_valid r1
            else
              match r1 with
              | EmptyString => false
              | String b2 r2 =>
                  if byte_in 224 239 b0
                  then second_of_three b0 b1 && is_cont b2 && utf8_valid r2
                  else
                    match r2 with
                    | EmptyString => false
                    | String b3 r3 =>
                        if byte_in 240 244 b0
                        then second_of_four b0 b1 && is_cont b2 && is_cont b3
                             && utf8_valid r3
                        else false
                    end
              end
        end
  end.

(** [b.decode()]: the text, which is modelled by its UTF-8 bytes, or
    [UnicodeDecodeError]. *)
Definition decode (b : string) : M string :=
  if utf8_valid b then ret b else raise UnicodeDecodeError.

(** [pipe.decode() if pipe is not None else ""]. *)
Definition decode_pipe (pipe : option string) : M string :=
  match pipe with
  | Some b => decode b
  | None => ret ""
  end.

Definition _get_branch : M (option string) :=
  let cmd := ["git"; "rev-parse"; "--abbrev-ref"; "HEAD"] in
  proc <- popen_communicate cmd ;;
  match proc with
  | PopenFailed e =>
      print_stderr ("Failed to run `f" +:+ join " " cmd +:+ "`: " +:+ e) ;;;
      ret None
  | Exited returncode stdout stderr =>
      stdout_text <- decode_pipe stdout ;;
      stderr_text <- decode_pipe stderr ;;
      if negb (returncode =? 0)%Z then
        print_stderr ("`" +:+ join " " cmd +:+ "` failed: "
                      +:+ stdout_text +:+ ", " +:+ stderr_text) ;;;
        ret None
      else ret (Some stdout_text)
  end.

(** Lines 47-51 of [main]: the source is [argv[2]] when [argv] has exactly
    four entries, and [None] otherwise.  With [length argv = 4] the lookup
    [nth_error argv 2] is the [Some] of [argv[2]]. *)
Definition main_commit_source (argv : list string) : option string :=
  if (length argv =? 4)%nat then nth_error argv 2 else None.

Definition main (argv : list string) : M Z :=
  commit_msg_file <- getitem argv 1 ;;
  let commit_source := main_commit_source argv in
  if source_in commit_source SUPPORTED_SOURCES then
    branch <- _get_branch ;;
    match branch with
    | Some branch =>
        match _get_ticket_from_branch branch TICKET_LABELS with
        | Some ticket =>
            commit_content <- read_file commit_msg_file ;;
            let out_content :=
              _add_ticket_to_commit ticket commit_source commit_content in
            match out_content with
            | Some out_content =>
                write_file commit_msg_file out_content ;;;
                ret 0%Z
            | None => ret 0%Z
            end
        | None => ret 0%Z
        end
    | None => ret 0%Z
    end
  else ret 0%Z.

(** [sys.exit(main(sys.argv))]: the status is what [main] returns, and 1
    when an exception escapes [main]. *)
Definition exit_status (r : Z + exn) : Z :=
  match r with
  | inl rc => rc
  | inr _ => 1%Z
  end.

(** The end of the process: an exception that escapes [main] is reported
    on the error stream by the interpreter. *)
Definition finish (r : (Z + exn) * world) : Z * world :=
  (exit_status (fst r),
   match fst r with
   | inl _ => snd r
   | inr e => log (Traceback e) (snd r)
   end).

(** The world before the hook runs, with the files [ro] write-protected. *)
Definition start_ro (ro : gset string) (fs : gmap string string) (g : git_outcome)
    : world :=
  World fs ro g [].

(** The world before the hook runs, when every file may be written. *)
Definition start (fs : gmap string string) (g : git_outcome) : world :=
  start_ro ∅ fs g.

(** One invocation of the script, with the files [ro] write-protected. *)
Definition run_hook_ro (ro : gset string) (argv : list string)
    (fs : gmap string string) (g : git_outcome) : Z * world :=
  finish (main argv (start_ro ro fs g)).

(** One invocation of the script on files that may all be written, as the
    files are that git hands to the hook. *)
Definition run_hook (argv : list string) (fs : gmap string string) (g : git_outcome)
    : Z * world :=
  run_hook_ro ∅ argv fs g.

(** ** Vocabulary of the properties

    *** Where the comment block starts *)

(** A line that starts with '#' starts at offset [k] of [s].  [bol] says
    whether offset 0 counts as the start of a line. *)
Definition comment_at_from (bol : bool) (s : string) (k : nat) : Prop :=
  String.get k s = Some Py.HASH /\
  match k with
  | 0 => bol = true
  | S j => String.get j s = Some Py.LF
  end.

Definition comment_at (s : string) (k : nat) : Prop := comment_at_from true s k.

(** [k] is the offset of the first line of [s] that starts with '#'. *)
Definition first_comment_at (s : string) (k : nat) : Prop :=
  comment_at s k /\ forall j, j < k -> ~ comment_at s j.

(** No line of [s] starts with '#'. *)
Definition no_comment (s : string) : Prop := forall k, ~ comment_at s k.

(** *** The Commit Body Editor *)

(** The sources for which the editor inserts. *)
Definition eligible (src : option string) : Prop :=
  src = None \/ src = Some "message" \/ src = Some "commit".

(** The text that goes between the body and the comment block. *)
Definition ticket_block (target : string) (src : option string) : string :=
  Py.NL +:+ target +:+ Py.NL +:+ match src with
                                 | None => Py.NL
                                 | Some _ => ""
                                 end.

(** What the file holds after the hook used the editor on it: the new
    content when there is one, the old content otherwise (lines 60-65). *)
Definition apply_editor (ticket : string) (src : option string) (content : string) : string :=
  match _add_ticket_to_commit ticket src content with
  | Some out => out
  | None => content
  end.

(** [s.split("\n")]. *)
Fixpoint split_lines (s : string) : list string :=
  match s with
  | EmptyString => [""]
  | String c s' =>
      if Ascii.eqb c Py.LF then "" :: split_lines s'
      else match split_lines s' with
           | l :: ls => String c l :: ls
           | [] => [String c ""]
           end
  end.

(** [s] holds no line feed. *)
Fixpoint one_line (s : string) : bool :=
  match s with
  | EmptyString => true
  | String c s' => negb (Ascii.eqb c Py.LF) && one_line s'
  end.

(** The last line of [s] that is not empty. *)
Definition last_nonempty_line (s : string) : option string :=
  find (fun l => negb (String.eqb l "")) (rev (split_lines s)).

(** *** The Ticket Resolver *)

Fixpoint all_digits (s : string) : bool :=
  match s with
  | EmptyString => true
  | String c s' => Py.is_digit c && all_digits s'
  end.

Definition starts_with_digit (s : string) : bool :=
  match s with
  | EmptyString => false
  | String c _ => Py.is_digit c
  end.

(** [t] is the match of [<label>-<digits>] at offset [i] of [branch]: the
    text of the label itself, a dash, and the digits that follow, up to the
    first character that is not a digit. *)
Definition ticket_at (label branch : string) (i : nat) (t : string) : Prop :=
  exists pre ds post,
    branch = pre +:+ label +:+ "-" +:+ ds +:+ post
    /\ String.length pre = i
    /\ ds <> ""
    /\ all_digits ds = true
    /\ starts_with_digit post = false
    /\ t = label +:+ "-" +:+ ds.

(** [t] is the leftmost match for [label] in [branch]. *)
Definition first_ticket (label branch t : string) : Prop :=
  exists i, ticket_at label branch i t
            /\ forall j t', j < i -> ~ ticket_at label branch j t'.

(** [label] has no match anywhere in [branch]. *)
Definition no_ticket (label branch : string) : Prop :=
  forall i t, ~ ticket_at label branch i t.

(** *** The hook as a whole *)

(** The files the hook wrote, with what it wrote, in order. *)
Fixpoint writes (t : list event) : list (string * string) :=
  match t with
  | [] => []
  | WriteFile path content :: t' => (path, content) :: writes t'
  | _ :: t' => writes t'
  end.

(** The files the hook read, in order. *)
Fixpoint reads (t : list event) : list string :=
  match t with
  | [] => []
  | ReadFile path :: t' => path :: reads t'
  | _ :: t' => reads t'
  end.

(** The diagnostics the hook printed to its error stream. *)
Fixpoint diagnostics (t : list event) : list string :=
  match t with
  | [] => []
  | PrintStderr msg :: t' => msg :: diagnostics t'
  | _ :: t' => diagnostics t'
  end.


(** The run of git did not give a branch name: the process could not be
    started, or it exited with a status other than 0. *)
Definition git_failed (g : git_outcome) : Prop :=
  match g with
  | PopenFailed _ => True
  | Exited returncode _ _ => returncode <> 0%Z
  end.

(** What is in the pipe is well-formed UTF-8 (nothing is, in no pipe). *)
Definition pipe_decodes (pipe : option string) : bool :=
  match pipe with
  | Some b => utf8_valid b
  | None => true
  end.

(** The text of a pipe that decodes. *)
Definition text_of (pipe : option string) : string :=
  match pipe with
  | Some t => t
  | None => ""
  end.

(** What git wrote, if it ran, decodes. *)
Definition git_decodes (g : git_outcome) : Prop :=
  match g with
  | PopenFailed _ => True
  | Exited _ stdout stderr =>
      pipe_decodes stdout = true /\ pipe_decodes stderr = true
  end.

(** The invocation gets as far as the editor, with this file, ticket and
    content: [argv[1]] is there, the source read from [argv] is a supported
    one, git gives a branch name in which a ticket is found, and the file can
    be read. *)
Definition reaches_editor (argv : list string) (fs : gmap string string)
    (g : git_outcome) (file ticket content : string) : Prop :=
  nth_error argv 1 = Some file
  /\ source_in (main_commit_source argv) SUPPORTED_SOURCES = true
  /\ (exists stdout stderr,
         g = Exited 0 stdout stderr
         /\ pipe_decodes stdout = true
         /\ pipe_decodes stderr = true
         /\ _get_ticket_from_branch (text_of stdout) TICKET_LABELS = Some ticket)
  /\ fs !! file = Some content.

(** The command line of the branch lookup. *)
Definition GIT_CMD : list string := ["git"; "rev-parse"; "--abbrev-ref"; "HEAD"].

(** *** Vocabulary of the further properties *)

(** Whether the place right after [a] is the start of a line, when [bol]
    says so for the place right before [a]. *)
Fixpoint ends_bol (bol : bool) (a : string) : bool :=
  match a with
  | EmptyString => bol
  | String c a' => ends_bol (Ascii.eqb c Py.LF) a'
  end.

(** The command lines the hook ran, in order. *)
Fixpoint git_runs (t : list event) : list (list string) :=
  match t with
  | [] => []
  | RunGit cmd :: t' => cmd :: git_runs t'
  | _ :: t' => git_runs t'
  end.

(** The exceptions the interpreter reported on the error stream. *)
Fixpoint tracebacks (t : list event) : list exn :=
  match t with
  | [] => []
  | Traceback e :: t' => e :: tracebacks t'
  | _ :: t' => tracebacks t'
  end.


(** ** Runs of the embedding *)

(** Small runs of the pure functions. *)

Example details_editor_absent :
  _add_ticket_details ("Add the new feature!" +:+ Py.NL +:+ "# Please enter..." +:+ Py.NL)
                      "Ticket: FOO-1234" None
  = "Add the new feature!" +:+ Py.NL +:+ Py.NL +:+ "Ticket: FOO-1234" +:+ Py.NL +:+ Py.NL
    +:+ "# Please enter..." +:+ Py.NL.
Proof. reflexivity. Qed.

Example details_message :
  _add_ticket_to_commit "BAR-9" (Some "message") ("Fix bug" +:+ Py.NL)
  = Some ("Fix bug" +:+ Py.NL +:+ Py.NL +:+ "Ticket: BAR-9" +:+ Py.NL).
Proof. reflexivity. Qed.

Example ticket_second_label :
  _get_ticket_from_branch "feature/FOO/BAR-9/x" TICKET_LABELS = Some "BAR-9".
Proof. reflexivity. Qed.

Example ticket_none :
  _get_ticket_from_branch "release-branch" TICKET_LABELS = None.
Proof. reflexivity. Qed.

Example hook_bare_commit :
  run_hook ["prepare-commit-msg"; ".git/COMMIT_EDITMSG"]
           {[ ".git/COMMIT_EDITMSG" := Py.NL +:+ "# Please enter" +:+ Py.NL ]}
           (Exited 0 (Some ("FOO-123/new-feature" +:+ Py.NL)) (Some ""))
  = (0%Z,
     World {[ ".git/COMMIT_EDITMSG" :=
                Py.NL +:+ Py.NL +:+ "Ticket: FOO-123" +:+ Py.NL +:+ Py.NL
                +:+ "# Please enter" +:+ Py.NL ]}
           ∅
           (Exited 0 (Some ("FOO-123/new-feature" +:+ Py.NL)) (Some ""))
           [RunGit ["git"; "rev-parse"; "--abbrev-ref"; "HEAD"];
            ReadFile ".git/COMMIT_EDITMSG";
            WriteFile ".git/COMMIT_EDITMSG"
              (Py.NL +:+ Py.NL +:+ "Ticket: FOO-123" +:+ Py.NL +:+ Py.NL
               +:+ "# Please enter" +:+ Py.NL)]).
Proof. vm_compute. reflexivity. Qed.

(** The strict UTF-8 codec: two bytes of an accented letter pass; the same
    letter in Latin-1, an overlong form, a surrogate, a code point above
    U+10FFFF and a sequence cut short do not. *)
Example utf8_valid_runs :
  utf8_valid ("caf" +:+ String "195"%char (String "169"%char "")) = true
  /\ utf8_valid ("caf" +:+ String "233"%char "") = false
  /\ utf8_valid (String "192"%char (String "128"%char "")) = false
  /\ utf8_valid (String "237"%char (String "160"%char (String "128"%char ""))) = false
  /\ utf8_valid (String "244"%char (String "144"%char (String "128"%char
                   (String "128"%char "")))) = false
  /\ utf8_valid (String "226"%char (String "130"%char "")) = false
  /\ utf8_valid (String "240"%char (String "159"%char (String "152"%char
                   (String "128"%char "")))) = true.
Proof. repeat split; reflexivity. Qed.

(** A branch name in Latin-1 ends the hook, although git succeeded. *)
Example hook_latin1_branch :
  fst (run_hook ["prepare-commit-msg"; ".git/COMMIT_EDITMSG"]
         {[ ".git/COMMIT_EDITMSG" := "Subject" +:+ Py.NL ]}
         (Exited 0 (Some ("FOO-1/caf" +:+ String "233"%char Py.NL)) (Some "")))
  = 1%Z.
Proof. vm_compute. reflexivity. Qed.

(** ** Facts about the text primitives *)

Section StringFacts.

Lemma str_app_assoc (a b c : string) : (a +:+ b) +:+ c = a +:+ (b +:+ c).
Proof. induction a as [|x a IH]; simpl; [reflexivity | now rewrite IH]. Qed.

Lemma str_app_nil_r (a : string) : a +:+ "" = a.
Proof. induction a as [|x a IH]; simpl; [reflexivity | now rewrite IH]. Qed.

Lemma str_length_app (a b : string) :
  String.length (a +:+ b) = String.length a + String.length b.
Proof. induction a as [|x a IH]; simpl; [reflexivity | now rewrite IH]. Qed.

Lemma startswith_app (p r : string) : Py.startswith (p +:+ r) p = true.
Proof.
  induction p as [|x p IH]; simpl; [reflexivity |].
  now rewrite Ascii.eqb_refl.
Qed.

Lemma startswith_inv (s p : string) :
  Py.startswith s p = true -> exists r, s = p +:+ r.
Proof.
  revert s; induction p as [|x p IH]; intros s H.
  - now exists s.
  - destruct s as [|y s]; simpl in H; [discriminate |].
    destruct (Ascii.eqb_spec x y) as [->|]; [| discriminate].
    destruct (IH _ H) as [r ->]. now exists r.
Qed.

Lemma startswith_spec (s p : string) :
  Py.startswith s p = true <-> exists r, s = p +:+ r.
Proof.
  split; [apply startswith_inv |].
  intros [r ->]. apply startswith_app.
Qed.

Lemma str_in_unfold (needle hay : string) :
  Py.str_in needle hay =
  Py.startswith hay needle
  || match hay with
     | EmptyString => false
     | String _ hay' => Py.str_in needle hay'
     end.
Proof. destruct hay; simpl; now destruct (Py.startswith _ needle). Qed.

(** [needle in hay] is substring containment. *)
Lemma str_in_spec (needle hay : string) :
  Py.str_in needle hay = true <-> exists a b, hay = a +:+ needle +:+ b.
Proof.
  split.
  - induction hay as [|c hay IH]; rewrite str_in_unfold, orb_true_iff.
    + intros [E|E]; [| discriminate].
      apply startswith_inv in E as [r E]. now exists "", r.
    + intros [E|E].
      * apply startswith_inv in E as [r E]. now exists "", r.
      * destruct (IH E) as (a & b & ->). now exists (String c a), b.
  - intros (a & b & ->). induction a as [|c a IH]; rewrite str_in_unfold.
    + simpl. now rewrite startswith_app.
    + simpl. rewrite IH. apply orb_true_r.
Qed.

Lemma str_in_app (a needle b : string) :
  Py.str_in needle (a +:+ needle +:+ b) = true.
Proof. apply str_in_spec. now exists a, b. Qed.

Lemma slice_to_from (k : nat) (s : string) :
  Py.slice_to k s +:+ Py.slice_from k s = s.
Proof.
  revert s; induction k as [|k IH]; intros [|c s]; simpl; try reflexivity.
  now rewrite IH.
Qed.

Lemma slice_to_substring (k : nat) (s : string) :
  Py.slice_to k s = substring 0 k s.
Proof.
  revert s; induction k as [|k IH]; intros [|c s]; simpl; try reflexivity.
  now rewrite IH.
Qed.

Lemma slice_from_substring (k : nat) (s : string) :
  Py.slice_from k s = substring k (String.length s - k) s.
Proof.
  revert s; induction k as [|k IH]; intros [|c s]; simpl; try reflexivity.
  - f_equal. clear. induction s as [|d s IH]; simpl; [reflexivity | now f_equal].
  - apply IH.
Qed.

Lemma slice_to_length (k : nat) (s : string) :
  k <= String.length s -> String.length (Py.slice_to k s) = k.
Proof.
  revert s; induction k as [|k IH]; intros [|c s] H; simpl in *;
    try reflexivity; try lia.
  rewrite IH; lia.
Qed.

Lemma slice_to_app (a b : string) : Py.slice_to (String.length a) (a +:+ b) = a.
Proof. induction a as [|c a IH]; simpl; [now destruct b | now rewrite IH]. Qed.

Lemma slice_from_app (a b : string) : Py.slice_from (String.length a) (a +:+ b) = b.
Proof. induction a as [|c a IH]; simpl; [now destruct b | exact IH]. Qed.

End StringFacts.

(** ** The search for the comment block *)

Section CommentSearch.

Lemma comment_at_from_cons (bol : bool) (c : ascii) (s : string) (j : nat) :
  comment_at_from bol (String c s) (S j)
  <-> comment_at_from (Ascii.eqb c Py.LF) s j.
Proof.
  unfold comment_at_from. destruct j as [|j]; simpl; [| tauto].
  rewrite Ascii.eqb_eq. split; intros [H1 H2]; split; congruence.
Qed.

Lemma comment_at_from_head (bol : bool) (c : ascii) (s : string) :
  comment_at_from bol (String c s) 0 <-> bol && Ascii.eqb c Py.HASH = true.
Proof.
  unfold comment_at_from; simpl.
  rewrite andb_true_iff, Ascii.eqb_eq. split; intros [H1 H2]; split; congruence.
Qed.

Lemma search_hash_from_spec (s : string) : forall bol pos,
  match Py.search_hash_from bol pos s with
  | Some p =>
      exists k, p = pos + k /\ comment_at_from bol s k
                /\ forall j, j < k -> ~ comment_at_from bol s j
  | None => forall k, ~ comment_at_from bol s k
  end.
Proof.
  induction s as [|c s IH]; intros bol pos; simpl.
  - intros k [H _]. now destruct k.
  - destruct (bol && Ascii.eqb c Py.HASH) eqn:E.
    + exists 0. split; [lia |]. split; [now apply comment_at_from_head | lia].
    + specialize (IH (Ascii.eqb c Py.LF) (S pos)).
      destruct (Py.search_hash_from (Ascii.eqb c Py.LF) (S pos) s) as [p|].
      * destruct IH as (k & -> & Hk & Hmin). exists (S k).
        split; [lia |]. split; [now apply comment_at_from_cons |].
        intros [|j] Hj Hc.
        -- apply comment_at_from_head in Hc. congruence.
        -- apply comment_at_from_cons in Hc. apply (Hmin j); [lia | exact Hc].
      * intros [|k] Hc.
        -- apply comment_at_from_head in Hc. congruence.
        -- apply comment_at_from_cons in Hc. exact (IH k Hc).
Qed.

Lemma first_comment_at_unique (s : string) (k k' : nat) :
  first_comment_at s k -> first_comment_at s k' -> k = k'.
Proof.
  intros [Hk Hmin] [Hk' Hmin'].
  destruct (Nat.lt_total k k') as [H|[H|H]]; [| exact H |].
  - destruct (Hmin' k H Hk).
  - destruct (Hmin k' H Hk').
Qed.

(** [re.search("^#", s, re.MULTILINE)] finds the first line that starts
    with '#'... *)
Lemma re_search_comment_Some (s : string) (k : nat) :
  Py.re_search_comment s = Some k <-> first_comment_at s k.
Proof.
  unfold Py.re_search_comment.
  pose proof (search_hash_from_spec s true 0) as H.
  destruct (Py.search_hash_from true 0 s) as [p|].
  - destruct H as (k0 & -> & Hk0). simpl. split.
    + intros [= <-]. exact Hk0.
    + intros Hk. f_equal. eapply first_comment_at_unique; [exact Hk0 | exact Hk].
  - split; [discriminate |]. intros [Hk _]. destruct (H k Hk).
Qed.

(** ... and finds nothing exactly when there is no such line. *)
Lemma re_search_comment_None (s : string) :
  Py.re_search_comment s = None <-> no_comment s.
Proof.
  unfold Py.re_search_comment.
  pose proof (search_hash_from_spec s true 0) as H.
  destruct (Py.search_hash_from true 0 s) as [p|].
  - split; [discriminate |]. destruct H as (k0 & _ & Hk0 & _).
    intros Hno. destruct (Hno k0 Hk0).
  - split; [intros _; exact H | reflexivity].
Qed.

Lemma first_comment_at_bound (s : string) (k : nat) :
  first_comment_at s k -> k < String.length s.
Proof.
  intros [[H _] _]. revert k H.
  induction s as [|c s IH]; intros k H; [now destruct k |].
  destruct k as [|k]; simpl in *; [lia |].
  specialize (IH k H). lia.
Qed.

End CommentSearch.

(** ** Lemmas on the Commit Body Editor *)

Section Editor.

Lemma eligible_gate (src : option string) :
  eligible src ->
  source_eqb src None || source_in src [Some "message"; Some "commit"] = true.
Proof. intros [->|[->| ->]]; reflexivity. Qed.

Lemma ineligible_gate (src : option string) :
  ~ eligible src ->
  source_eqb src None || source_in src [Some "message"; Some "commit"] = false.
Proof.
  intros H. unfold eligible in H. destruct src as [s|]; [| tauto]. simpl.
  destruct (String.eqb_spec s "message") as [->|]; [tauto |].
  destruct (String.eqb_spec s "commit") as [->|]; [tauto | reflexivity].
Qed.

Lemma details_with_comment (content target : string) (src : option string) (k : nat) :
  first_comment_at content k ->
  _add_ticket_details content target src
  = Py.slice_to k content +:+ ticket_block target src +:+ Py.slice_from k content.
Proof.
  intros H. apply re_search_comment_Some in H.
  unfold _add_ticket_details, ticket_block. rewrite H.
  destruct src; rewrite ?str_app_assoc, ?str_app_nil_r; reflexivity.
Qed.

Lemma details_without_comment (content target : string) (src : option string) :
  no_comment content ->
  _add_ticket_details content target src = content +:+ Py.NL +:+ target +:+ Py.NL.
Proof.
  intros H. apply re_search_comment_None in H.
  unfold _add_ticket_details. now rewrite H.
Qed.

Lemma details_contains_target (content target : string) (src : option string) :
  Py.str_in target (_add_ticket_details content target src) = true.
Proof.
  apply str_in_spec. unfold _add_ticket_details.
  destruct (Py.re_search_comment content) as [k|].
  - exists (Py.slice_to k content +:+ Py.NL).
    destruct src.
    + exists (Py.NL +:+ Py.slice_from k content).
      now rewrite !str_app_assoc.
    + exists (Py.NL +:+ Py.NL +:+ Py.slice_from k content).
      now rewrite !str_app_assoc.
  - exists (content +:+ Py.NL), Py.NL. now rewrite !str_app_assoc.
Qed.

Lemma editor_inserts (ticket content : string) (src : option string) :
  eligible src ->
  Py.str_in (TICKET_PREFIX +:+ ticket) content = false ->
  _add_ticket_to_commit ticket src content
  = Some (_add_ticket_details content (TICKET_PREFIX +:+ ticket) src).
Proof.
  intros He Hin. unfold _add_ticket_to_commit.
  now rewrite Hin, (eligible_gate _ He).
Qed.

Lemma editor_result (ticket content out : string) (src : option string) :
  _add_ticket_to_commit ticket src content = Some out ->
  out = _add_ticket_details content (TICKET_PREFIX +:+ ticket) src
  /\ Py.str_in (TICKET_PREFIX +:+ ticket) content = false.
Proof.
  unfold _add_ticket_to_commit.
  destruct (Py.str_in _ content); [discriminate |].
  destruct (_ || _); [| discriminate].
  intros [= <-]. now split.
Qed.

Lemma split_lines_cons (s : string) : exists l ls, split_lines s = l :: ls.
Proof.
  induction s as [|c s (l & ls & IH)]; simpl; [now eexists _, _ |].
  rewrite IH. destruct (Ascii.eqb c Py.LF); now eexists _, _.
Qed.

Lemma split_lines_app (a b : string) :
  split_lines (a +:+ Py.NL +:+ b) = (split_lines a ++ split_lines b)%list.
Proof.
  induction a as [|c a IH]; simpl in *; [reflexivity |].
  destruct (Ascii.eqb c Py.LF); rewrite IH; [reflexivity |].
  destruct (split_lines_cons a) as (l & ls & ->). reflexivity.
Qed.

Lemma split_lines_one_line (s : string) :
  one_line s = true -> split_lines s = [s].
Proof.
  induction s as [|c s IH]; simpl; [reflexivity |].
  destruct (Ascii.eqb c Py.LF); simpl; [discriminate |].
  intros H. now rewrite (IH H).
Qed.

End Editor.

(** ** Properties of the Commit Body Editor *)

(** Claim C1.  When the first line of the content that starts with '#'
    starts at offset [k], the insertion step returns
    [content[:k] + "\n" + target + "\n" + extra + content[k:]], where [extra]
    is one more line feed when the commit source is absent and nothing
    otherwise; the two slices are the substrings of the content before and
    from offset [k] and make up the content, so the body and the comment
    block are kept as they are on both sides of the ticket block.
    For an eligible source and a content that does not hold the target line
    yet, this is what the editor returns. *)
Theorem insert_before_comment_block
    (content ticket : string) (src : option string) (k : nat) :
  first_comment_at content k ->
  Py.slice_to k content = substring 0 k content
  /\ Py.slice_from k content = substring k (String.length content - k) content
  /\ Py.slice_to k content +:+ Py.slice_from k content = content
  /\ _add_ticket_details content (TICKET_PREFIX +:+ ticket) src
     = Py.slice_to k content
       +:+ Py.NL +:+ (TICKET_PREFIX +:+ ticket) +:+ Py.NL
       +:+ match src with
           | None => Py.NL
           | Some _ => ""
           end
       +:+ Py.slice_from k content
  /\ (eligible src ->
      Py.str_in (TICKET_PREFIX +:+ ticket) content = false ->
      _add_ticket_to_commit ticket src content
      = Some (Py.slice_to k content
              +:+ Py.NL +:+ (TICKET_PREFIX +:+ ticket) +:+ Py.NL
              +:+ match src with
                  | None => Py.NL
                  | Some _ => ""
                  end
              +:+ Py.slice_from k content)).
Proof.
  intros Hk.
  assert (Hd : _add_ticket_details content (TICKET_PREFIX +:+ ticket) src
               = Py.slice_to k content
                 +:+ Py.NL +:+ (TICKET_PREFIX +:+ ticket) +:+ Py.NL
                 +:+ match src with
                     | None => Py.NL
                     | Some _ => ""
                     end
                 +:+ Py.slice_from k content).
  { rewrite (details_with_comment _ _ _ _ Hk). unfold ticket_block.
    now rewrite !str_app_assoc. }
  split; [apply slice_to_substring |]. split; [apply slice_from_substring |].
  split; [apply slice_to_from |]. split; [exact Hd |].
  intros He Hin. rewrite (editor_inserts _ _ _ He Hin). now rewrite Hd.
Qed.

Lemma insert_before_comment_block_witness :
  first_comment_at ("Add the new feature!" +:+ Py.NL +:+ "# Please enter..." +:+ Py.NL) 21
  /\ _add_ticket_to_commit "FOO-1234" None
       ("Add the new feature!" +:+ Py.NL +:+ "# Please enter..." +:+ Py.NL)
     = Some ("Add the new feature!" +:+ Py.NL
             +:+ Py.NL +:+ "Ticket: FOO-1234" +:+ Py.NL +:+ Py.NL
             +:+ "# Please enter..." +:+ Py.NL).
Proof.
  assert (H : first_comment_at
                ("Add the new feature!" +:+ Py.NL +:+ "# Please enter..." +:+ Py.NL) 21)
    by (apply re_search_comment_Some; reflexivity).
  split; [exact H |].
  apply (proj2 (proj2 (proj2 (proj2
           (insert_before_comment_block _ "FOO-1234" None 21 H)))));
    [left; reflexivity | reflexivity].
Defined.

(** Claim C5.  When no line of the content starts with '#' (a '#' in the
    middle of a line is not the start of one), the insertion step returns
    [content + "\n" + target + "\n"], and so does the editor for an eligible
    source when the target line is not there yet.  For the empty content this
    is ["\n" + target + "\n"].  When the ticket holds no line feed, the
    lines of the result are those of the content, the ticket line and the
    empty string after the final line feed: the ticket line is the last line
    that is not empty. *)
Theorem append_without_comment_block :
  (forall (content ticket : string) (src : option string),
      no_comment content ->
      _add_ticket_details content (TICKET_PREFIX +:+ ticket) src
      = content +:+ Py.NL +:+ (TICKET_PREFIX +:+ ticket) +:+ Py.NL
      /\ (eligible src ->
          Py.str_in (TICKET_PREFIX +:+ ticket) content = false ->
          _add_ticket_to_commit ticket src content
          = Some (content +:+ Py.NL +:+ (TICKET_PREFIX +:+ ticket) +:+ Py.NL))
      /\ (one_line ticket = true ->
          split_lines (_add_ticket_details content (TICKET_PREFIX +:+ ticket) src)
          = (split_lines content ++ [TICKET_PREFIX +:+ ticket; ""])%list
          /\ last_nonempty_line
               (_add_ticket_details content (TICKET_PREFIX +:+ ticket) src)
             = Some (TICKET_PREFIX +:+ ticket)))
  /\ (forall (ticket : string) (src : option string),
         _add_ticket_details "" (TICKET_PREFIX +:+ ticket) src
         = Py.NL +:+ (TICKET_PREFIX +:+ ticket) +:+ Py.NL).
Proof.
  split; [| reflexivity].
  intros content ticket src Hno.
  pose proof (details_without_comment content (TICKET_PREFIX +:+ ticket) src Hno) as Hd.
  split; [exact Hd |]. split.
  - intros He Hin. now rewrite (editor_inserts _ _ _ He Hin), Hd.
  - intros Hone. rewrite Hd.
    assert (Hl : split_lines (content +:+ Py.NL +:+ (TICKET_PREFIX +:+ ticket) +:+ Py.NL)
                 = (split_lines content ++ [TICKET_PREFIX +:+ ticket; ""])%list).
    { rewrite split_lines_app. f_equal.
      replace ((TICKET_PREFIX +:+ ticket) +:+ Py.NL)
        with ((TICKET_PREFIX +:+ ticket) +:+ Py.NL +:+ "") by reflexivity.
      rewrite split_lines_app, split_lines_one_line; [reflexivity |].
      exact Hone. }
    split; [exact Hl |].
    unfold last_nonempty_line. rewrite Hl, rev_app_distr. reflexivity.
Qed.

Lemma append_without_comment_block_witness :
  no_comment ("Fix #9 bug" +:+ Py.NL)
  /\ _add_ticket_to_commit "BAR-9" (Some "message") ("Fix #9 bug" +:+ Py.NL)
     = Some ("Fix #9 bug" +:+ Py.NL +:+ Py.NL +:+ "Ticket: BAR-9" +:+ Py.NL)
  /\ last_nonempty_line
       (_add_ticket_details ("Fix #9 bug" +:+ Py.NL) "Ticket: BAR-9" (Some "message"))
     = Some "Ticket: BAR-9".
Proof.
  assert (H : no_comment ("Fix #9 bug" +:+ Py.NL))
    by (apply re_search_comment_None; reflexivity).
  split; [exact H |].
  destruct (proj1 append_without_comment_block
              ("Fix #9 bug" +:+ Py.NL) "BAR-9" (Some "message") H)
    as (_ & Hed & Hlast).
  split.
  - apply Hed; [right; left; reflexivity | reflexivity].
  - apply Hlast. reflexivity.
Defined.

(** Claim C3.  For a commit source that is neither absent nor "message" nor
    "commit" the editor returns no change, whatever the ticket and the
    content; this covers "merge", "squash" and "template".  For an absent
    source, "message" and "commit" the editor goes on to the insertion step,
    provided the target line is not in the content yet. *)
Theorem editor_source_gate (ticket content : string) (src : option string) :
  (~ eligible src -> _add_ticket_to_commit ticket src content = None)
  /\ _add_ticket_to_commit ticket (Some "merge") content = None
  /\ _add_ticket_to_commit ticket (Some "squash") content = None
  /\ _add_ticket_to_commit ticket (Some "template") content = None
  /\ (eligible src ->
      Py.str_in (TICKET_PREFIX +:+ ticket) content = false ->
      _add_ticket_to_commit ticket src content
      = Some (_add_ticket_details content (TICKET_PREFIX +:+ ticket) src)).
Proof.
  assert (Hgate : forall s, ~ eligible s -> _add_ticket_to_commit ticket s content = None).
  { intros s Hs. unfold _add_ticket_to_commit.
    rewrite (ineligible_gate _ Hs). now destruct (Py.str_in _ content). }
  split; [apply Hgate |].
  repeat split;
    try (apply Hgate; intros [H|[H|H]]; discriminate).
  apply editor_inserts.
Qed.

Lemma editor_source_gate_witness :
  ~ eligible (Some "rebase")
  /\ _add_ticket_to_commit "FOO-7" (Some "rebase") ("Subject" +:+ Py.NL) = None
  /\ eligible (Some "commit")
  /\ _add_ticket_to_commit "FOO-7" (Some "commit") ("Subject" +:+ Py.NL)
     = Some ("Subject" +:+ Py.NL +:+ Py.NL +:+ "Ticket: FOO-7" +:+ Py.NL).
Proof.
  assert (H1 : ~ eligible (Some "rebase")) by (intros [H|[H|H]]; discriminate).
  assert (H2 : eligible (Some "commit")) by (right; right; reflexivity).
  split; [exact H1 |]. split.
  - exact (proj1 (editor_source_gate "FOO-7" ("Subject" +:+ Py.NL) (Some "rebase")) H1).
  - split; [exact H2 |].
    exact (proj2 (proj2 (proj2 (proj2
             (editor_source_gate "FOO-7" ("Subject" +:+ Py.NL) (Some "commit")))))
             H2 eq_refl).
Defined.

(** Claim C4.  The editor is idempotent.  When the content already holds the
    target line it returns no change; the content the editor produces holds
    the target line; so using the editor on a file twice leaves the same
    content as using it once. *)
Theorem editor_idempotent (ticket content : string) (src : option string) :
  ((exists a b, content = a +:+ (TICKET_PREFIX +:+ ticket) +:+ b) ->
   _add_ticket_to_commit ticket src content = None)
  /\ (forall out,
         _add_ticket_to_commit ticket src content = Some out ->
         _add_ticket_to_commit ticket src out = None)
  /\ apply_editor ticket src (apply_editor ticket src content)
     = apply_editor ticket src content.
Proof.
  assert (Hpresent : forall c,
             Py.str_in (TICKET_PREFIX +:+ ticket) c = true ->
             _add_ticket_to_commit ticket src c = None).
  { intros c Hc. unfold _add_ticket_to_commit. now rewrite Hc. }
  assert (Hsecond : forall out,
             _add_ticket_to_commit ticket src content = Some out ->
             _add_ticket_to_commit ticket src out = None).
  { intros out Hout. apply editor_result in Hout as [-> _].
    apply Hpresent, details_contains_target. }
  split; [| split; [exact Hsecond |]].
  - intros Hex. apply Hpresent, str_in_spec, Hex.
  - unfold apply_editor at 2 3.
    destruct (_add_ticket_to_commit ticket src content) as [out|] eqn:E.
    + unfold apply_editor. now rewrite (Hsecond out eq_refl).
    + unfold apply_editor. now rewrite E.
Qed.

Lemma editor_idempotent_witness :
  (exists a b,
      "Subject" +:+ Py.NL +:+ Py.NL +:+ "Ticket: FOO-1" +:+ Py.NL
      = a +:+ (TICKET_PREFIX +:+ "FOO-1") +:+ b)
  /\ _add_ticket_to_commit "FOO-1" None
       ("Subject" +:+ Py.NL +:+ Py.NL +:+ "Ticket: FOO-1" +:+ Py.NL) = None
  /\ _add_ticket_to_commit "FOO-1" None
       ("Subject" +:+ Py.NL +:+ Py.NL +:+ "Ticket: FOO-1" +:+ Py.NL +:+ Py.NL
        +:+ "# comment" +:+ Py.NL) = None.
Proof.
  assert (H : exists a b,
             "Subject" +:+ Py.NL +:+ Py.NL +:+ "Ticket: FOO-1" +:+ Py.NL
             = a +:+ (TICKET_PREFIX +:+ "FOO-1") +:+ b)
    by (exists ("Subject" +:+ Py.NL +:+ Py.NL), Py.NL; reflexivity).
  split; [exact H |]. split.
  - exact (proj1 (editor_idempotent "FOO-1" _ None) H).
  - exact (proj1 (proj2 (editor_idempotent "FOO-1"
                           ("Subject" +:+ Py.NL +:+ "# comment" +:+ Py.NL) None))
             _ eq_refl).
Defined.

(** Claim C10.  The test for a ticket that is already there is substring
    containment of the prefix followed by the ticket, not a comparison with
    a whole line: whatever stands before and after an occurrence of the
    target text, also on the same line, the editor returns no change.  For
    an eligible source it returns no change only then. *)
Theorem present_means_substring (ticket : string) (src : option string) :
  (forall a b,
      _add_ticket_to_commit ticket src (a +:+ (TICKET_PREFIX +:+ ticket) +:+ b) = None)
  /\ (forall content,
         eligible src ->
         _add_ticket_to_commit ticket src content = None ->
         exists a b, content = a +:+ (TICKET_PREFIX +:+ ticket) +:+ b).
Proof.
  split.
  - intros a b. unfold _add_ticket_to_commit. now rewrite str_in_app.
  - intros content He. unfold _add_ticket_to_commit.
    destruct (Py.str_in (TICKET_PREFIX +:+ ticket) content) eqn:E.
    + intros _. now apply str_in_spec.
    + now rewrite (eligible_gate _ He).
Qed.

Lemma present_means_substring_witness :
  _add_ticket_to_commit "FOO-1" (Some "message") ("Fix" +:+ Py.NL +:+ "Ticket: FOO-12" +:+ Py.NL)
  = None
  /\ _add_ticket_to_commit "FOO-1" None ("see Ticket: FOO-1 here" +:+ Py.NL) = None
  /\ eligible (Some "message")
  /\ exists a b,
       "Fix" +:+ Py.NL +:+ "Ticket: FOO-12" +:+ Py.NL
       = a +:+ (TICKET_PREFIX +:+ "FOO-1") +:+ b.
Proof.
  assert (He : eligible (Some "message")) by (right; left; reflexivity).
  split; [| split; [| split; [exact He |]]].
  - exact (proj1 (present_means_substring "FOO-1" (Some "message"))
             ("Fix" +:+ Py.NL) ("2" +:+ Py.NL)).
  - exact (proj1 (present_means_substring "FOO-1" None) "see " (" here" +:+ Py.NL)).
  - exact (proj2 (present_means_substring "FOO-1" (Some "message"))
             ("Fix" +:+ Py.NL +:+ "Ticket: FOO-12" +:+ Py.NL) He eq_refl).
Defined.

(** ** The search for the ticket *)

Section Resolver.

Lemma strip_prefix_app (p r : string) : Py.strip_prefix p (p +:+ r) = Some r.
Proof.
  induction p as [|c p IH]; simpl; [reflexivity |].
  now rewrite Ascii.eqb_refl.
Qed.

Lemma strip_prefix_inv (p s r : string) :
  Py.strip_prefix p s = Some r -> s = p +:+ r.
Proof.
  revert s; induction p as [|c p IH]; intros s H; simpl in H.
  - now injection H as ->.
  - destruct s as [|d s]; [discriminate |].
    destruct (Ascii.eqb_spec c d) as [->|]; [| discriminate].
    simpl. now rewrite (IH _ H).
Qed.

Lemma digit_run_split (s : string) :
  exists post,
    s = Py.digit_run s +:+ post
    /\ all_digits (Py.digit_run s) = true
    /\ starts_with_digit post = false.
Proof.
  induction s as [|c s (post & Hs & Hd & Hp)]; simpl.
  - now exists "".
  - destruct (Py.is_digit c) eqn:E.
    + exists post. simpl. rewrite E, Hd. now rewrite <- Hs.
    + exists (String c s). simpl. now rewrite E.
Qed.

Lemma digit_run_app (ds post : string) :
  all_digits ds = true -> starts_with_digit post = false ->
  Py.digit_run (ds +:+ post) = ds.
Proof.
  intros Hd Hp. induction ds as [|c ds IH]; simpl in *.
  - destruct post as [|d post]; simpl in *; [reflexivity | now rewrite Hp].
  - apply andb_true_iff in Hd as [Hc Hd]. now rewrite Hc, (IH Hd).
Qed.

Lemma length_zero_empty (s : string) : String.length s = 0 -> s = "".
Proof. now destruct s. Qed.

Lemma match_ticket_here_spec (label s t : string) :
  Py.match_ticket_here label s = Some t <-> ticket_at label s 0 t.
Proof.
  unfold Py.match_ticket_here. split.
  - destruct (Py.strip_prefix (label +:+ "-") s) as [rest|] eqn:E; [| discriminate].
    apply strip_prefix_inv in E.
    destruct (digit_run_split rest) as (post & Hrest & Hd & Hp).
    destruct (Py.digit_run rest) as [|c ds] eqn:Er; [discriminate |].
    intros [= <-]. exists "", (String c ds), post.
    repeat split; try assumption; try discriminate.
    rewrite E, Hrest. now rewrite !str_app_assoc.
  - intros (pre & ds & post & -> & Hpre & Hne & Hd & Hp & ->).
    apply length_zero_empty in Hpre as ->.
    change ("" +:+ label +:+ "-" +:+ ds +:+ post)
      with (label +:+ "-" +:+ ds +:+ post).
    rewrite <- (str_app_assoc label "-" (ds +:+ post)).
    rewrite strip_prefix_app, (digit_run_app _ _ Hd Hp).
    destruct ds; [contradiction | reflexivity].
Qed.

Lemma ticket_at_cons (label s t : string) (c : ascii) (i : nat) :
  ticket_at label (String c s) (S i) t <-> ticket_at label s i t.
Proof.
  split.
  - intros (pre & ds & post & Hs & Hpre & H).
    destruct pre as [|d pre]; [discriminate |].
    simpl in Hs, Hpre. injection Hs as -> ->. injection Hpre as Hpre.
    now exists pre, ds, post.
  - intros (pre & ds & post & -> & Hpre & H).
    exists (String c pre), ds, post. simpl. now rewrite Hpre.
Qed.

Lemma ticket_at_empty (label t : string) (i : nat) :
  ticket_at label "" (S i) t -> False.
Proof.
  intros (pre & ds & post & Hs & Hpre & _).
  destruct pre; discriminate.
Qed.

Lemma re_search_ticket_spec (label s : string) :
  match Py.re_search_ticket label s with
  | Some t => first_ticket label s t
  | None => no_ticket label s
  end.
Proof.
  induction s as [|c s IH]; simpl.
  - destruct (Py.match_ticket_here label "") as [m|] eqn:E.
    + exists 0. split; [now apply match_ticket_here_spec | lia].
    + intros [|i] t H.
      * apply match_ticket_here_spec in H. congruence.
      * exact (ticket_at_empty _ _ _ H).
  - destruct (Py.match_ticket_here label (String c s)) as [m|] eqn:E.
    + exists 0. split; [now apply match_ticket_here_spec | lia].
    + destruct (Py.re_search_ticket label s) as [t|].
      * destruct IH as (i & Hi & Hmin). exists (S i).
        split; [now apply ticket_at_cons |].
        intros [|j] t' Hj H.
        -- apply match_ticket_here_spec in H. congruence.
        -- apply ticket_at_cons in H. apply (Hmin j t'); [lia | exact H].
      * intros [|i] t H.
        -- apply match_ticket_here_spec in H. congruence.
        -- apply ticket_at_cons in H. exact (IH i t H).
Qed.

Lemma ticket_at_unique (label s t t' : string) (i : nat) :
  ticket_at label s i t -> ticket_at label s i t' -> t = t'.
Proof.
  revert s; induction i as [|i IH]; intros s H H'.
  - apply match_ticket_here_spec in H, H'. congruence.
  - destruct s as [|c s]; [destruct (ticket_at_empty _ _ _ H) |].
    apply ticket_at_cons in H, H'. exact (IH _ H H').
Qed.

Lemma first_ticket_unique (label s t t' : string) :
  first_ticket label s t -> first_ticket label s t' -> t = t'.
Proof.
  intros (i & Hi & Hmin) (i' & Hi' & Hmin').
  destruct (Nat.lt_total i i') as [H|[H|H]].
  - destruct (Hmin' i t H Hi).
  - subst i'. exact (ticket_at_unique _ _ _ _ _ Hi Hi').
  - destruct (Hmin i' t' H Hi').
Qed.

Lemma re_search_ticket_Some (label s t : string) :
  Py.re_search_ticket label s = Some t <-> first_ticket label s t.
Proof.
  pose proof (re_search_ticket_spec label s) as H.
  destruct (Py.re_search_ticket label s) as [m|].
  - split; [now intros [= <-] |].
    intros Ht. f_equal. exact (first_ticket_unique _ _ _ _ H Ht).
  - split; [discriminate |]. intros (i & Hi & _). destruct (H i t Hi).
Qed.

Lemma re_search_ticket_None (label s : string) :
  Py.re_search_ticket label s = None <-> no_ticket label s.
Proof.
  pose proof (re_search_ticket_spec label s) as H.
  destruct (Py.re_search_ticket label s) as [m|].
  - split; [discriminate |]. destruct H as (i & Hi & _).
    intros Hno. destruct (Hno i m Hi).
  - split; [now intros _ | reflexivity].
Qed.

End Resolver.

(** Claim C2.  The resolver returns the leftmost match of
    [<label>-<digits>] for the first label, in the order of the labels, that
    has a match in the branch name; the text of a label stands for itself.
    It returns nothing when no label has a match.  With the labels [A; B],
    when only [B] has a match the result is that match, wherever the text of
    [A] occurs without a dash and digits after it.  Whenever the resolver
    returns a ticket, it is such a match. *)
Theorem resolver_first_label_leftmost (branch : string) :
  (forall before label after t,
      (forall l, In l before -> no_ticket l branch) ->
      first_ticket label branch t ->
      _get_ticket_from_branch branch (before ++ label :: after)%list = Some t)
  /\ (forall labels,
         (forall l, In l labels -> no_ticket l branch) ->
         _get_ticket_from_branch branch labels = None)
  /\ (forall A B t,
         no_ticket A branch ->
         first_ticket B branch t ->
         _get_ticket_from_branch branch [A; B] = Some t)
  /\ (forall labels t,
         _get_ticket_from_branch branch labels = Some t ->
         exists before label after,
           labels = (before ++ label :: after)%list
           /\ (forall l, In l before -> no_ticket l branch)
           /\ first_ticket label branch t).
Proof.
  assert (Hfirst : forall before label after t,
             (forall l, In l before -> no_ticket l branch) ->
             first_ticket label branch t ->
             _get_ticket_from_branch branch (before ++ label :: after)%list = Some t).
  { intros before label after t Hno Ht.
    induction before as [|l before IH]; simpl.
    - apply re_search_ticket_Some in Ht. now rewrite Ht.
    - assert (Hl : Py.re_search_ticket l branch = None)
        by (apply re_search_ticket_None, Hno; now left).
      rewrite Hl. apply IH. intros l' Hl'. apply Hno. now right. }
  split; [exact Hfirst |]. split; [| split].
  - intros labels Hno. induction labels as [|l labels IH]; simpl; [reflexivity |].
    assert (Hl : Py.re_search_ticket l branch = None)
      by (apply re_search_ticket_None, Hno; now left).
    rewrite Hl. apply IH. intros l' Hl'. apply Hno. now right.
  - intros A B t HA HB. apply (Hfirst [A] B [] t); [| exact HB].
    intros l [<-|[]]. exact HA.
  - intros labels t. induction labels as [|l labels IH]; simpl; [discriminate |].
    destruct (Py.re_search_ticket l branch) as [m|] eqn:E.
    + intros [= ->]. exists [], l, labels.
      split; [reflexivity |]. split; [intros ? [] |].
      now apply re_search_ticket_Some.
    + intros H. destruct (IH H) as (before & label & after & -> & Hno & Ht).
      exists (l :: before), label, after.
      split; [reflexivity |]. split; [| exact Ht].
      intros l' [<-|Hl']; [now apply re_search_ticket_None | now apply Hno].
Qed.

Lemma resolver_first_label_leftmost_witness :
  no_ticket "FOO" "feature/FOO/BAR-9/BAR-10"
  /\ first_ticket "BAR" "feature/FOO/BAR-9/BAR-10" "BAR-9"
  /\ _get_ticket_from_branch "feature/FOO/BAR-9/BAR-10" ["FOO"; "BAR"] = Some "BAR-9"
  /\ _get_ticket_from_branch "main" ["FOO"; "BAR"] = None.
Proof.
  assert (HA : no_ticket "FOO" "feature/FOO/BAR-9/BAR-10")
    by (apply re_search_ticket_None; reflexivity).
  assert (HB : first_ticket "BAR" "feature/FOO/BAR-9/BAR-10" "BAR-9")
    by (apply re_search_ticket_Some; reflexivity).
  split; [exact HA |]. split; [exact HB |]. split.
  - exact (proj1 (proj2 (proj2 (resolver_first_label_leftmost _))) "FOO" "BAR" _ HA HB).
  - apply (proj1 (proj2 (resolver_first_label_leftmost "main"))).
    intros l [<-|[<-|[]]]; apply re_search_ticket_None; reflexivity.
Defined.

(** ** The runs of main *)

Section Hook.

Local Arguments nth_error : simpl never.
Local Arguments source_in : simpl never.
Local Arguments main_commit_source : simpl never.
Local Arguments _get_ticket_from_branch : simpl never.
Local Arguments _add_ticket_to_commit : simpl never.
Local Arguments String.append : simpl never.
Local Arguments join : simpl never.
Local Arguments decode_pipe : simpl never.
Local Arguments bool_decide : simpl never.

Ltac run_main :=
  unfold main, _get_branch, bind, getitem, popen_communicate,
    print_stderr, emit, read_file, write_file, ret, raise, start_ro, log;
  simpl.

Lemma details_longer (content target : string) (src : option string) :
  String.length content
  < String.length (_add_ticket_details content target src).
Proof.
  unfold _add_ticket_details.
  destruct (Py.re_search_comment content) as [k|].
  - rewrite <- (slice_to_from k content) at 1.
    destruct src; rewrite !str_length_app; simpl; lia.
  - rewrite !str_length_app. simpl. lia.
Qed.

Lemma editor_changes (ticket content out : string) (src : option string) :
  _add_ticket_to_commit ticket src content = Some out -> out <> content.
Proof.
  intros H ->. apply editor_result in H as [H _].
  pose proof (details_longer content (TICKET_PREFIX +:+ ticket) src) as Hl.
  rewrite <- H in Hl. lia.
Qed.

Lemma decode_pipe_ok (pipe : option string) (w : world) :
  pipe_decodes pipe = true -> decode_pipe pipe w = (inl (text_of pipe), w).
Proof.
  unfold decode_pipe, decode, pipe_decodes. destruct pipe as [b|]; [| reflexivity].
  now intros ->.
Qed.

Lemma decode_pipe_fails (pipe : option string) (w : world) :
  pipe_decodes pipe = false -> decode_pipe pipe w = (inr UnicodeDecodeError, w).
Proof.
  unfold decode_pipe, decode, pipe_decodes. destruct pipe as [b|]; [| discriminate].
  now intros ->.
Qed.

Lemma writable_empty (file : string) (d : Decision (file ∈ (∅ : gset string))) :
  @bool_decide (file ∈ (∅ : gset string)) d = false.
Proof. apply bool_decide_eq_false_2, not_elem_of_empty. Qed.

(** What [main] does, case by case. *)
Lemma run_hook_no_file (argv : list string) ro fs g :
  nth_error argv 1 = None ->
  main argv (start_ro ro fs g) = (inr IndexError, start_ro ro fs g).
Proof. intros H. run_main. now rewrite H. Qed.

Lemma run_hook_unsupported (argv : list string) ro fs g file :
  nth_error argv 1 = Some file ->
  source_in (main_commit_source argv) SUPPORTED_SOURCES = false ->
  main argv (start_ro ro fs g) = (inl 0%Z, start_ro ro fs g).
Proof. intros H1 H2. run_main. rewrite H1; simpl. now rewrite H2. Qed.

Lemma run_hook_popen_failed (argv : list string) ro fs e file :
  nth_error argv 1 = Some file ->
  source_in (main_commit_source argv) SUPPORTED_SOURCES = true ->
  main argv (start_ro ro fs (PopenFailed e))
  = (inl 0%Z,
     World fs ro (PopenFailed e)
       [RunGit ["git"; "rev-parse"; "--abbrev-ref"; "HEAD"];
        PrintStderr ("Failed to run `fgit rev-parse --abbrev-ref HEAD`: " +:+ e)]).
Proof. intros H1 H2. run_main. rewrite H1; simpl. now rewrite H2. Qed.

Lemma run_hook_undecodable (argv : list string) ro fs rc out err file :
  nth_error argv 1 = Some file ->
  source_in (main_commit_source argv) SUPPORTED_SOURCES = true ->
  pipe_decodes out && pipe_decodes err = false ->
  main argv (start_ro ro fs (Exited rc out err))
  = (inr UnicodeDecodeError,
     World fs ro (Exited rc out err)
       [RunGit ["git"; "rev-parse"; "--abbrev-ref"; "HEAD"]]).
Proof.
  intros H1 H2 H3. run_main. rewrite H1; simpl. rewrite H2; simpl.
  destruct (pipe_decodes out) eqn:Ho.
  - rewrite (decode_pipe_ok _ _ Ho). simpl in H3.
    now rewrite (decode_pipe_fails _ _ H3).
  - now rewrite (decode_pipe_fails _ _ Ho).
Qed.

Lemma run_hook_git_nonzero (argv : list string) ro fs rc out err file :
  nth_error argv 1 = Some file ->
  source_in (main_commit_source argv) SUPPORTED_SOURCES = true ->
  pipe_decodes out = true ->
  pipe_decodes err = true ->
  rc <> 0%Z ->
  main argv (start_ro ro fs (Exited rc out err))
  = (inl 0%Z,
     World fs ro (Exited rc out err)
       [RunGit ["git"; "rev-parse"; "--abbrev-ref"; "HEAD"];
        PrintStderr ("`git rev-parse --abbrev-ref HEAD` failed: "
                     +:+ text_of out +:+ ", " +:+ text_of err)]).
Proof.
  intros H1 H2 Ho He H3. run_main. rewrite H1; simpl. rewrite H2; simpl.
  rewrite (decode_pipe_ok _ _ Ho), (decode_pipe_ok _ _ He).
  destruct (Z.eqb_spec rc 0) as [|_]; [contradiction | reflexivity].
Qed.

Lemma run_hook_no_ticket (argv : list string) ro fs out err file :
  nth_error argv 1 = Some file ->
  source_in (main_commit_source argv) SUPPORTED_SOURCES = true ->
  pipe_decodes out = true ->
  pipe_decodes err = true ->
  _get_ticket_from_branch (text_of out) TICKET_LABELS = None ->
  main argv (start_ro ro fs (Exited 0 out err))
  = (inl 0%Z,
     World fs ro (Exited 0 out err)
       [RunGit ["git"; "rev-parse"; "--abbrev-ref"; "HEAD"]]).
Proof.
  intros H1 H2 Ho He H3. run_main. rewrite H1; simpl. rewrite H2; simpl.
  rewrite (decode_pipe_ok _ _ Ho), (decode_pipe_ok _ _ He). simpl.
  now rewrite H3.
Qed.

Lemma run_hook_unreadable (argv : list string) ro fs out err file ticket :
  nth_error argv 1 = Some file ->
  source_in (main_commit_source argv) SUPPORTED_SOURCES = true ->
  pipe_decodes out = true ->
  pipe_decodes err = true ->
  _get_ticket_from_branch (text_of out) TICKET_LABELS = Some ticket ->
  fs !! file = None ->
  main argv (start_ro ro fs (Exited 0 out err))
  = (inr (FileReadError file),
     World fs ro (Exited 0 out err)
       [RunGit ["git"; "rev-parse"; "--abbrev-ref"; "HEAD"]]).
Proof.
  intros H1 H2 Ho He H3 H4. run_main. rewrite H1; simpl. rewrite H2; simpl.
  rewrite (decode_pipe_ok _ _ Ho), (decode_pipe_ok _ _ He). simpl.
  rewrite H3; simpl. now rewrite H4.
Qed.

Lemma run_hook_editor (argv : list string) ro fs out err file ticket content :
  nth_error argv 1 = Some file ->
  source_in (main_commit_source argv) SUPPORTED_SOURCES = true ->
  pipe_decodes out = true ->
  pipe_decodes err = true ->
  _get_ticket_from_branch (text_of out) TICKET_LABELS = Some ticket ->
  fs !! file = Some content ->
  main argv (start_ro ro fs (Exited 0 out err))
  = match _add_ticket_to_commit ticket (main_commit_source argv) content with
    | Some new =>
        if bool_decide (file ∈ ro)
        then (inr (FileWriteError file),
              World fs ro (Exited 0 out err)
                [RunGit ["git"; "rev-parse"; "--abbrev-ref"; "HEAD"];
                 ReadFile file])
        else (inl 0%Z,
              World (<[file := new]> fs) ro (Exited 0 out err)
                [RunGit ["git"; "rev-parse"; "--abbrev-ref"; "HEAD"];
                 ReadFile file; WriteFile file new])
    | None =>
        (inl 0%Z,
         World fs ro (Exited 0 out err)
           [RunGit ["git"; "rev-parse"; "--abbrev-ref"; "HEAD"];
            ReadFile file])
    end.
Proof.
  intros H1 H2 Ho He H3 H4. run_main. rewrite H1; simpl. rewrite H2; simpl.
  rewrite (decode_pipe_ok _ _ Ho), (decode_pipe_ok _ _ He). simpl.
  rewrite H3; simpl. rewrite H4; simpl.
  destruct (_add_ticket_to_commit ticket (main_commit_source argv) content);
    [| reflexivity].
  simpl. now destruct (bool_decide (file ∈ ro)).
Qed.

End Hook.

(** Split an invocation into its runs: no [argv[1]], a source that is not
    supported, git not started, output of git that does not decode, git
    failing, no ticket, a file that cannot be read, and the editor.
    [Hmain] says what [main] does in each and is used on the goal. *)
Ltac main_by_cases ro argv fs g :=
  let file := fresh "file" in
  let ticket := fresh "ticket" in
  let content := fresh "content" in
  let Hfile := fresh "Hfile" in
  let Hsrc := fresh "Hsrc" in
  let Hrc := fresh "Hrc" in
  let Hout := fresh "Hout" in
  let Herr := fresh "Herr" in
  let Hdec := fresh "Hdec" in
  let Hticket := fresh "Hticket" in
  let Hread := fresh "Hread" in
  let Hmain := fresh "Hmain" in
  let e := fresh "e" in
  let rc := fresh "rc" in
  let out := fresh "out" in
  let err := fresh "err" in
  destruct (nth_error argv 1) as [file|] eqn:Hfile;
  [ destruct (source_in (main_commit_source argv) SUPPORTED_SOURCES) eqn:Hsrc;
    [ destruct g as [e|rc out err];
      [ pose proof (run_hook_popen_failed argv ro fs e file Hfile Hsrc) as Hmain
      | destruct (pipe_decodes out && pipe_decodes err) eqn:Hdec;
        [ apply andb_true_iff in Hdec as [Hout Herr];
          destruct (Z.eq_dec rc 0%Z) as [->|Hrc];
          [ destruct (_get_ticket_from_branch (text_of out) TICKET_LABELS)
              as [ticket|] eqn:Hticket;
            [ destruct (fs !! file) as [content|] eqn:Hread;
              [ pose proof (run_hook_editor argv ro fs out err file ticket content
                              Hfile Hsrc Hout Herr Hticket Hread) as Hmain
              | pose proof (run_hook_unreadable argv ro fs out err file ticket
                              Hfile Hsrc Hout Herr Hticket Hread) as Hmain ]
            | pose proof (run_hook_no_ticket argv ro fs out err file
                            Hfile Hsrc Hout Herr Hticket) as Hmain ]
          | pose proof (run_hook_git_nonzero argv ro fs rc out err file
                          Hfile Hsrc Hout Herr Hrc) as Hmain ]
        | pose proof (run_hook_undecodable argv ro fs rc out err file
                        Hfile Hsrc Hdec) as Hmain ] ]
    | pose proof (run_hook_unsupported argv ro fs g file Hfile Hsrc) as Hmain ]
  | pose proof (run_hook_no_file argv ro fs g Hfile) as Hmain ];
  rewrite ?Hmain.

(** The same on a goal about [main argv (start_ro ro fs g)], whatever
    [ro] is there. *)
Ltac hook_cases argv fs g :=
  match goal with
  | |- context [main argv (start_ro ?ro fs g)] => main_by_cases ro argv fs g
  end.

(** Project the outcome of a run without unfolding the functions. *)
Ltac hook_simpl :=
  cbn [fst snd files trace git readonly exit_status finish log start_ro app].

(** No run reaches the editor in a case in which [main] stops before. *)
Ltac never_reaches :=
  let Hf := fresh in
  let Hs := fresh in
  let Hg := fresh in
  let Ho := fresh in
  let He := fresh in
  let Ht := fresh in
  let Hc := fresh in
  intros ? ? ? (Hf & Hs & (? & ? & Hg & Ho & He & Ht) & Hc);
  try congruence;
  try (injection Hg as ? ? ?; subst; congruence);
  try (injection Hg as ? ? ?; subst;
       match goal with
       | H : pipe_decodes _ && pipe_decodes _ = false |- _ =>
           rewrite Ho, He in H; discriminate
       end).

(** ** Properties of the hook *)

Lemma main_commit_source_three (prog file tag : string) :
  main_commit_source [prog; file; tag] = None.
Proof. reflexivity. Qed.

Lemma main_commit_source_four (prog file tag sha : string) :
  main_commit_source [prog; file; tag; sha] = Some tag.
Proof. reflexivity. Qed.

(** Claim C6.  The claim says that the source used is [argv[2]] whenever
    there is an [argv[2]].  The code takes [argv[2]] only when [argv] has
    exactly four entries: called with the file and the source alone, as git
    does for [git commit -m] and for [git merge], it takes the source to be
    absent.  So the editor adds the blank line of an absent source to a
    "message" commit, and writes the ticket into a merge commit although
    "merge" is not a supported source. *)
Theorem source_ignored_without_third_argument :
  main_commit_source ["prepare-commit-msg"; ".git/COMMIT_EDITMSG"; "message"] = None
  /\ nth_error ["prepare-commit-msg"; ".git/COMMIT_EDITMSG"; "message"] 2 = Some "message"
  /\ files (snd (run_hook ["prepare-commit-msg"; ".git/COMMIT_EDITMSG"; "message"]
                   {[ ".git/COMMIT_EDITMSG" := "Subject" +:+ Py.NL +:+ "# comment" +:+ Py.NL ]}
                   (Exited 0 (Some ("FOO-1/x" +:+ Py.NL)) (Some ""))))
       !! ".git/COMMIT_EDITMSG"
     = Some ("Subject" +:+ Py.NL +:+ Py.NL +:+ "Ticket: FOO-1" +:+ Py.NL +:+ Py.NL
             +:+ "# comment" +:+ Py.NL)
  /\ _add_ticket_to_commit "FOO-1" (Some "message")
       ("Subject" +:+ Py.NL +:+ "# comment" +:+ Py.NL)
     = Some ("Subject" +:+ Py.NL +:+ Py.NL +:+ "Ticket: FOO-1" +:+ Py.NL
             +:+ "# comment" +:+ Py.NL)
  /\ source_in (Some "merge") SUPPORTED_SOURCES = false
  /\ files (snd (run_hook ["prepare-commit-msg"; ".git/MERGE_MSG"; "merge"]
                   {[ ".git/MERGE_MSG" := "Merge the other commit" +:+ Py.NL ]}
                   (Exited 0 (Some ("FOO-1/x" +:+ Py.NL)) (Some ""))))
       !! ".git/MERGE_MSG"
     = Some ("Merge the other commit" +:+ Py.NL +:+ Py.NL +:+ "Ticket: FOO-1" +:+ Py.NL).
Proof. repeat split; vm_compute; reflexivity. Qed.




(** Claim C8.  The claim says that a failing git is reported and swallowed.
    The code decodes both pipes before it looks at the return code, and
    outside the [try]: when git fails and what it wrote is not UTF-8 (a
    message in Latin-1 here, [0xE9] and [0xF4] being the accented letters),
    [bytes.decode()] raises, no diagnostic is printed, and the exception ends
    the hook with status 1.  With the same message in ASCII the hook prints
    its diagnostic and exits with status 0. *)
Theorem undecodable_git_failure_aborts :
  git_failed
    (Exited 128 (Some "")
       (Some ("fatal: pas un d" +:+ String "233"%char ("p"
              +:+ String "244"%char "t git"))))
  /\ run_hook ["prepare-commit-msg"; ".git/COMMIT_EDITMSG"]
       {[ ".git/COMMIT_EDITMSG" := "Subject" +:+ Py.NL ]}
       (Exited 128 (Some "")
          (Some ("fatal: pas un d" +:+ String "233"%char ("p"
                 +:+ String "244"%char "t git"))))
     = (1%Z,
        World {[ ".git/COMMIT_EDITMSG" := "Subject" +:+ Py.NL ]} ∅
          (Exited 128 (Some "")
             (Some ("fatal: pas un d" +:+ String "233"%char ("p"
                    +:+ String "244"%char "t git"))))
          [RunGit GIT_CMD; Traceback UnicodeDecodeError])
  /\ diagnostics
       (trace (snd (run_hook ["prepare-commit-msg"; ".git/COMMIT_EDITMSG"]
                      {[ ".git/COMMIT_EDITMSG" := "Subject" +:+ Py.NL ]}
                      (Exited 128 (Some "")
                         (Some ("fatal: pas un d" +:+ String "233"%char ("p"
                                +:+ String "244"%char "t git")))))))
     = []
  /\ run_hook ["prepare-commit-msg"; ".git/COMMIT_EDITMSG"]
       {[ ".git/COMMIT_EDITMSG" := "Subject" +:+ Py.NL ]}
       (Exited 128 (Some "") (Some "fatal: pas un depot git"))
     = (0%Z,
        World {[ ".git/COMMIT_EDITMSG" := "Subject" +:+ Py.NL ]} ∅
          (Exited 128 (Some "") (Some "fatal: pas un depot git"))
          [RunGit GIT_CMD;
           PrintStderr
             "`git rev-parse --abbrev-ref HEAD` failed: , fatal: pas un depot git"]).
Proof.
  split; [intros H; discriminate H |].
  repeat split; vm_compute; reflexivity.
Qed.

(** Claim C9.  On every invocation the commit-message file is written, once
    and as a whole, exactly when the run gets as far as the editor and the
    editor returns a new content, which then differs from the old one; the
    file then holds the new content and every other file is as it was.
    Whenever the editor returns no change, and whenever the run does not get
    as far as the editor, nothing is written and the files are as they
    were.  The file is read at most once. *)
Theorem file_written_iff_editor_changes (argv : list string) (fs : gmap string string)
    (g : git_outcome) :
  (forall file ticket content,
      reaches_editor argv fs g file ticket content ->
      match _add_ticket_to_commit ticket (main_commit_source argv) content with
      | Some out =>
          writes (trace (snd (run_hook argv fs g))) = [(file, out)]
          /\ files (snd (run_hook argv fs g)) = <[file := out]> fs
          /\ out <> content
      | None =>
          writes (trace (snd (run_hook argv fs g))) = []
          /\ files (snd (run_hook argv fs g)) = fs
      end)
  /\ ((forall file ticket content, ~ reaches_editor argv fs g file ticket content) ->
      writes (trace (snd (run_hook argv fs g))) = []
      /\ files (snd (run_hook argv fs g)) = fs)
  /\ length (writes (trace (snd (run_hook argv fs g)))) <= 1
  /\ length (reads (trace (snd (run_hook argv fs g)))) <= 1.
Proof.
  assert (Hnone : forall w : world,
             (forall file ticket content,
                 ~ reaches_editor argv fs g file ticket content) ->
             writes (trace w) = [] -> length (reads (trace w)) <= 1 ->
             files w = fs ->
             (forall file ticket content,
                 reaches_editor argv fs g file ticket content ->
                 match _add_ticket_to_commit ticket (main_commit_source argv) content with
                 | Some out =>
                     writes (trace w) = [(file, out)]
                     /\ files w = <[file := out]> fs
                     /\ out <> content
                 | None => writes (trace w) = [] /\ files w = fs
                 end)
             /\ ((forall file ticket content,
                     ~ reaches_editor argv fs g file ticket content) ->
                 writes (trace w) = [] /\ files w = fs)
             /\ length (writes (trace w)) <= 1
             /\ length (reads (trace w)) <= 1).
  { intros w Hno Hw Hr Hfs. split.
    - intros file ticket content Hreach. destruct (Hno _ _ _ Hreach).
    - split; [intros _; now split |]. rewrite Hw. simpl. lia. }
  revert Hnone. unfold run_hook, run_hook_ro.
  hook_cases argv fs g; intros Hnone.
  1,3-8: (apply Hnone; [never_reaches | reflexivity | hook_simpl; simpl; lia
                        | reflexivity]).
  assert (Hreach : reaches_editor argv fs (Exited 0 out err) file ticket content)
    by (repeat split; try assumption; now exists out, err).
  assert (Hsame : forall f t c,
             reaches_editor argv fs (Exited 0 out err) f t c ->
             f = file /\ t = ticket /\ c = content).
  { intros f t c (Hf' & _ & (o' & e' & Hg' & _ & _ & Ht') & Hc').
    assert (f = file) as -> by congruence.
    injection Hg' as <- <-. repeat split; congruence. }
  pose proof (fun out => editor_changes ticket content out (main_commit_source argv))
    as Hchg.
  destruct (_add_ticket_to_commit ticket (main_commit_source argv) content)
    as [new|] eqn:E.
  - rewrite writable_empty. hook_simpl. split.
    + intros f t c Hr. destruct (Hsame _ _ _ Hr) as (-> & -> & ->). rewrite E.
      repeat split. now apply (Hchg new).
    + split; [| simpl; lia]. intros Hno. destruct (Hno _ _ _ Hreach).
  - hook_simpl. split.
    + intros f t c Hr. destruct (Hsame _ _ _ Hr) as (-> & -> & ->). rewrite E.
      now split.
    + split; [| simpl; lia]. intros Hno. destruct (Hno _ _ _ Hreach).
Qed.

Lemma file_written_iff_editor_changes_witness :
  reaches_editor ["prepare-commit-msg"; ".git/COMMIT_EDITMSG"]
    {[ ".git/COMMIT_EDITMSG" := "Fix bug" +:+ Py.NL ]}
    (Exited 0 (Some ("feature/BAR-9/x" +:+ Py.NL)) (Some ""))
    ".git/COMMIT_EDITMSG" "BAR-9" ("Fix bug" +:+ Py.NL)
  /\ writes (trace (snd (run_hook ["prepare-commit-msg"; ".git/COMMIT_EDITMSG"]
                           {[ ".git/COMMIT_EDITMSG" := "Fix bug" +:+ Py.NL ]}
                           (Exited 0 (Some ("feature/BAR-9/x" +:+ Py.NL)) (Some "")))))
     = [(".git/COMMIT_EDITMSG",
         "Fix bug" +:+ Py.NL +:+ Py.NL +:+ "Ticket: BAR-9" +:+ Py.NL)]
  /\ (forall file ticket content,
         ~ reaches_editor ["prepare-commit-msg"; ".git/COMMIT_EDITMSG"]
             {[ ".git/COMMIT_EDITMSG" := "Fix bug" +:+ Py.NL ]}
             (Exited 0 (Some ("release-branch" +:+ Py.NL)) (Some ""))
             file ticket content)
  /\ files (snd (run_hook ["prepare-commit-msg"; ".git/COMMIT_EDITMSG"]
                   {[ ".git/COMMIT_EDITMSG" := "Fix bug" +:+ Py.NL ]}
                   (Exited 0 (Some ("release-branch" +:+ Py.NL)) (Some ""))))
     = {[ ".git/COMMIT_EDITMSG" := "Fix bug" +:+ Py.NL ]}.
Proof.
  assert (Hreach : reaches_editor ["prepare-commit-msg"; ".git/COMMIT_EDITMSG"]
                     {[ ".git/COMMIT_EDITMSG" := "Fix bug" +:+ Py.NL ]}
                     (Exited 0 (Some ("feature/BAR-9/x" +:+ Py.NL)) (Some ""))
                     ".git/COMMIT_EDITMSG" "BAR-9" ("Fix bug" +:+ Py.NL)).
  { split; [reflexivity |]. split; [reflexivity |]. split.
    - eexists _, _. repeat split; reflexivity.
    - vm_compute. reflexivity. }
  assert (Hno : forall file ticket content,
             ~ reaches_editor ["prepare-commit-msg"; ".git/COMMIT_EDITMSG"]
                 {[ ".git/COMMIT_EDITMSG" := "Fix bug" +:+ Py.NL ]}
                 (Exited 0 (Some ("release-branch" +:+ Py.NL)) (Some ""))
                 file ticket content).
  { intros file ticket content (_ & _ & (o & e & [= <- <-] & _ & _ & Ht) & _).
    vm_compute in Ht. discriminate. }
  split; [exact Hreach |]. split.
  - exact (proj1 (proj1 (file_written_iff_editor_changes _ _ _) _ _ _ Hreach)).
  - split; [exact Hno |].
    exact (proj2 (proj1 (proj2 (file_written_iff_editor_changes _ _ _)) Hno)).
Defined.

(** ** Further properties of the Commit Body Editor *)

Section EditorShape.

(** The new content is the old one with one block put in. *)
Lemma editor_shape (ticket content out : string) (src : option string) :
  _add_ticket_to_commit ticket src content = Some out ->
  exists a b extra,
    content = a +:+ b
    /\ out = a +:+ Py.NL +:+ (TICKET_PREFIX +:+ ticket) +:+ Py.NL +:+ extra +:+ b
    /\ (extra = "" \/ (extra = Py.NL /\ src = None)).
Proof.
  intros H. apply editor_result in H as [-> _].
  unfold _add_ticket_details.
  destruct (Py.re_search_comment content) as [k|].
  - exists (Py.slice_to k content), (Py.slice_from k content).
    destruct src as [s|].
    + exists "". split; [now rewrite slice_to_from |].
      split; [now rewrite !str_app_assoc | now left].
    + exists Py.NL. split; [now rewrite slice_to_from |].
      split; [now rewrite !str_app_assoc | now right].
  - exists content, "", "". split; [now rewrite str_app_nil_r |].
    split; [now rewrite !str_app_assoc, !str_app_nil_r | now left].
Qed.

Lemma one_line_prefix (ticket : string) :
  one_line (TICKET_PREFIX +:+ ticket) = one_line ticket.
Proof. reflexivity. Qed.

Lemma search_hash_from_app (a b : string) : forall bol pos,
  Py.search_hash_from bol pos a = None ->
  Py.search_hash_from bol pos (a +:+ b)
  = Py.search_hash_from (ends_bol bol a) (pos + String.length a) b.
Proof.
  induction a as [|c a IH]; intros bol pos H; simpl in *.
  - now rewrite Nat.add_0_r.
  - destruct (bol && Ascii.eqb c Py.HASH); [discriminate |].
    rewrite (IH _ _ H). f_equal. lia.
Qed.

Lemma search_hash_from_prefix (a b : string) : forall bol pos p,
  Py.search_hash_from bol pos (a +:+ b) = Some p ->
  pos + String.length a <= p ->
  Py.search_hash_from bol pos a = None.
Proof.
  induction a as [|c a IH]; intros bol pos p H Hp; simpl in *; [reflexivity |].
  destruct (bol && Ascii.eqb c Py.HASH).
  - injection H as <-. lia.
  - apply (IH _ _ p H). lia.
Qed.

(** A text on one line is passed over when the scan is inside a line. *)
Lemma search_hash_from_one_line (t b : string) : forall pos,
  one_line t = true ->
  Py.search_hash_from false pos (t +:+ b)
  = Py.search_hash_from false (pos + String.length t) b.
Proof.
  induction t as [|c t IH]; intros pos H; simpl in *.
  - now rewrite Nat.add_0_r.
  - apply andb_true_iff in H as [Hc Ht].
    apply negb_true_iff in Hc. rewrite Hc, (IH _ Ht). f_equal. lia.
Qed.

Lemma one_line_search_None (t : string) : forall pos,
  one_line t = true -> Py.search_hash_from false pos t = None.
Proof.
  induction t as [|c t IH]; intros pos H; simpl in *; [reflexivity |].
  apply andb_true_iff in H as [Hc Ht].
  apply negb_true_iff in Hc. rewrite Hc. now apply IH.
Qed.

(** The scan over the ticket block, from its first line feed to the place
    after its last one. *)
Lemma search_hash_from_block (ticket rest : string) (bol : bool) (pos : nat) :
  one_line ticket = true ->
  Py.search_hash_from bol pos
    (Py.NL +:+ (TICKET_PREFIX +:+ ticket) +:+ Py.NL +:+ rest)
  = Py.search_hash_from true (pos + 10 + String.length ticket) rest.
Proof.
  intros H. unfold Py.NL, TICKET_PREFIX. simpl.
  rewrite andb_false_r. simpl.
  rewrite (search_hash_from_one_line _ _ _ H). simpl.
  f_equal. lia.
Qed.

Lemma first_comment_at_tail (content : string) (k : nat) :
  first_comment_at content k ->
  exists rest, Py.slice_from k content = String Py.HASH rest.
Proof.
  intros [[H _] _]. revert content H.
  induction k as [|k IH]; intros [|c s] H; simpl in *; try discriminate.
  - injection H as ->. now exists s.
  - now apply IH.
Qed.

End EditorShape.

(** X1.  The editor only inserts.  Whenever it returns a new content, that
    content is the old one, cut in two at some place, with the same two
    pieces around one block: a line feed, the target line, a line feed, and
    one more line feed or nothing.  Not a character of the old content is
    dropped, changed or moved, and the new content is longer by the length
    of the ticket plus 10 or 11. *)
Theorem editor_only_inserts (ticket content out : string) (src : option string) :
  _add_ticket_to_commit ticket src content = Some out ->
  (exists a b extra,
      content = a +:+ b
      /\ out = a +:+ Py.NL +:+ (TICKET_PREFIX +:+ ticket) +:+ Py.NL +:+ extra +:+ b
      /\ (extra = "" \/ (extra = Py.NL /\ src = None)))
  /\ String.length content + String.length ticket + 10 <= String.length out
  /\ String.length out <= String.length content + String.length ticket + 11.
Proof.
  intros H. destruct (editor_shape _ _ _ _ H) as (a & b & extra & -> & -> & He).
  split; [now exists a, b, extra |].
  rewrite !str_length_app. unfold TICKET_PREFIX. simpl.
  destruct He as [->|[-> _]]; simpl; lia.
Qed.

Lemma editor_only_inserts_witness :
  _add_ticket_to_commit "FOO-12" None ("Subject" +:+ Py.NL +:+ "# comment" +:+ Py.NL)
  = Some ("Subject" +:+ Py.NL +:+ Py.NL +:+ "Ticket: FOO-12" +:+ Py.NL +:+ Py.NL
          +:+ "# comment" +:+ Py.NL)
  /\ String.length ("Subject" +:+ Py.NL +:+ "# comment" +:+ Py.NL) + 6 + 10
     <= String.length ("Subject" +:+ Py.NL +:+ Py.NL +:+ "Ticket: FOO-12" +:+ Py.NL
                       +:+ Py.NL +:+ "# comment" +:+ Py.NL).
Proof.
  split; [reflexivity |].
  exact (proj1 (proj2 (editor_only_inserts "FOO-12"
                         ("Subject" +:+ Py.NL +:+ "# comment" +:+ Py.NL) _ None eq_refl))).
Defined.

(** X2.  The ticket goes into the body, never into the comment block.  When
    the ticket is on one line and the comment block of the content starts at
    offset [k], the comment block of the new content starts right after the
    ticket block, at [k] plus the length of that block, and it is the old
    comment block, character for character: the search that found the
    comment block in the old content finds the same block in the new one. *)
Theorem comment_block_stays_first
    (content ticket : string) (src : option string) (k : nat) :
  first_comment_at content k ->
  one_line ticket = true ->
  first_comment_at
    (_add_ticket_details content (TICKET_PREFIX +:+ ticket) src)
    (k + String.length (ticket_block (TICKET_PREFIX +:+ ticket) src))
  /\ Py.slice_from
       (k + String.length (ticket_block (TICKET_PREFIX +:+ ticket) src))
       (_add_ticket_details content (TICKET_PREFIX +:+ ticket) src)
     = Py.slice_from k content.
Proof.
  intros Hk Hone.
  pose proof (first_comment_at_bound _ _ Hk) as Hlt.
  destruct (first_comment_at_tail _ _ Hk) as [rest Htail].
  rewrite (details_with_comment _ _ _ _ Hk).
  assert (Hlen : String.length (Py.slice_to k content) = k)
    by (apply slice_to_length; lia).
  split.
  - apply re_search_comment_Some. unfold Py.re_search_comment.
    assert (Hhead : Py.search_hash_from true 0 (Py.slice_to k content) = None).
    { apply (search_hash_from_prefix _ (Py.slice_from k content) _ _ k); [| lia].
      rewrite slice_to_from. now apply re_search_comment_Some. }
    rewrite (search_hash_from_app _ _ _ _ Hhead), Hlen. unfold ticket_block.
    set (target := TICKET_PREFIX +:+ ticket).
    rewrite !str_app_assoc. subst target.
    rewrite (search_hash_from_block _ _ _ _ Hone), Htail.
    rewrite !str_length_app. unfold TICKET_PREFIX.
    destruct src; simpl; f_equal; lia.
  - rewrite <- Hlen at 1. rewrite <- str_length_app, <- str_app_assoc.
    apply slice_from_app.
Qed.

Lemma comment_block_stays_first_witness :
  first_comment_at ("Subject" +:+ Py.NL +:+ "# comment" +:+ Py.NL) 8
  /\ one_line "FOO-12" = true
  /\ first_comment_at
       (_add_ticket_details ("Subject" +:+ Py.NL +:+ "# comment" +:+ Py.NL)
          (TICKET_PREFIX +:+ "FOO-12") None)
       (8 + String.length (ticket_block (TICKET_PREFIX +:+ "FOO-12") None)).
Proof.
  assert (H : first_comment_at ("Subject" +:+ Py.NL +:+ "# comment" +:+ Py.NL) 8)
    by (apply re_search_comment_Some; reflexivity).
  split; [exact H |]. split; [reflexivity |].
  exact (proj1 (comment_block_stays_first _ "FOO-12" None 8 H eq_refl)).
Defined.

(** X3.  The editor makes no comment block.  When no line of the content
    starts with '#' and the ticket is on one line, no line of the new content
    starts with '#' either. *)
Theorem no_comment_block_created (content ticket : string) (src : option string) :
  no_comment content ->
  one_line ticket = true ->
  no_comment (_add_ticket_details content (TICKET_PREFIX +:+ ticket) src).
Proof.
  intros Hno Hone. rewrite (details_without_comment _ _ _ Hno).
  apply re_search_comment_None in Hno. apply re_search_comment_None.
  unfold Py.re_search_comment in *.
  rewrite (search_hash_from_app _ _ _ _ Hno).
  replace (Py.NL +:+ (TICKET_PREFIX +:+ ticket) +:+ Py.NL)
    with (Py.NL +:+ (TICKET_PREFIX +:+ ticket) +:+ Py.NL +:+ "")
    by now rewrite !str_app_nil_r.
  now rewrite (search_hash_from_block _ _ _ _ Hone).
Qed.

Lemma no_comment_block_created_witness :
  no_comment ("Fix #9 bug" +:+ Py.NL)
  /\ one_line "BAR-9" = true
  /\ no_comment (_add_ticket_details ("Fix #9 bug" +:+ Py.NL)
                   (TICKET_PREFIX +:+ "BAR-9") (Some "message")).
Proof.
  assert (H : no_comment ("Fix #9 bug" +:+ Py.NL))
    by (apply re_search_comment_None; reflexivity).
  split; [exact H |]. split; [reflexivity |].
  exact (no_comment_block_created _ "BAR-9" (Some "message") H eq_refl).
Defined.

(** X4.  The target line is a line of its own.  Whenever the editor returns
    a new content for a ticket on one line, the prefix followed by the ticket
    is one of the lines of that content, whether the block went before a
    comment block or to the end. *)
Theorem ticket_is_a_line (ticket content out : string) (src : option string) :
  _add_ticket_to_commit ticket src content = Some out ->
  one_line ticket = true ->
  In (TICKET_PREFIX +:+ ticket) (split_lines out).
Proof.
  intros H Hone.
  destruct (editor_shape _ _ _ _ H) as (a & b & extra & _ & -> & _).
  rewrite split_lines_app, split_lines_app.
  rewrite (split_lines_one_line (TICKET_PREFIX +:+ ticket))
    by now rewrite one_line_prefix.
  apply in_or_app. right. now left.
Qed.

Lemma ticket_is_a_line_witness :
  one_line "FOO-12" = true
  /\ In (TICKET_PREFIX +:+ "FOO-12")
       (split_lines ("Subject" +:+ Py.NL +:+ Py.NL +:+ "Ticket: FOO-12" +:+ Py.NL
                     +:+ Py.NL +:+ "# comment" +:+ Py.NL)).
Proof.
  split; [reflexivity |].
  exact (ticket_is_a_line "FOO-12" ("Subject" +:+ Py.NL +:+ "# comment" +:+ Py.NL)
           _ None eq_refl eq_refl).
Defined.

(** ** Further properties of the Ticket Resolver *)

Section ResolverShape.

Lemma one_line_app (a b : string) :
  one_line (a +:+ b) = one_line a && one_line b.
Proof.
  induction a as [|c a IH]; simpl; [reflexivity |].
  now rewrite IH, andb_assoc.
Qed.

Lemma all_digits_one_line (ds : string) : all_digits ds = true -> one_line ds = true.
Proof.
  induction ds as [|c ds IH]; simpl; [reflexivity |].
  intros H. apply andb_true_iff in H as [Hc Hd]. rewrite (IH Hd), andb_true_r.
  destruct (Ascii.eqb_spec c Py.LF) as [->|]; [discriminate | reflexivity].
Qed.

Lemma first_ticket_shape (label branch t : string) :
  first_ticket label branch t ->
  exists ds,
    t = label +:+ "-" +:+ ds
    /\ ds <> ""
    /\ all_digits ds = true
    /\ Py.str_in t branch = true.
Proof.
  intros (i & (pre & ds & post & -> & _ & Hne & Hd & _ & ->) & _).
  exists ds. repeat split; try assumption.
  apply str_in_spec. exists pre, post. now rewrite !str_app_assoc.
Qed.

Lemma strip_prefix_snoc (p s r : string) (c : ascii) :
  Py.strip_prefix p (s +:+ String c "") = Some r ->
  (exists r', Py.strip_prefix p s = Some r' /\ r = r' +:+ String c "")
  \/ (r = "" /\ Py.strip_prefix p s = None).
Proof.
  revert s; induction p as [|a p IH]; intros s H.
  - left. exists s. simpl in *. split; [reflexivity | congruence].
  - destruct s as [|b s]; simpl in *.
    + destruct (Ascii.eqb a c); [| discriminate].
      destruct p; simpl in H; [| discriminate].
      right. split; congruence.
    + destruct (Ascii.eqb a b); [now apply IH | discriminate].
Qed.

Lemma strip_prefix_snoc_Some (p s r : string) (c : ascii) :
  Py.strip_prefix p s = Some r ->
  Py.strip_prefix p (s +:+ String c "") = Some (r +:+ String c "").
Proof.
  revert s; induction p as [|a p IH]; intros s H; simpl in *.
  - congruence.
  - destruct s as [|b s]; [discriminate |]. simpl.
    destruct (Ascii.eqb a b); [now apply IH | discriminate].
Qed.

Lemma digit_run_snoc (r : string) (c : ascii) :
  Py.is_digit c = false ->
  Py.digit_run (r +:+ String c "") = Py.digit_run r.
Proof.
  intros Hc. induction r as [|d r IH]; simpl; [now rewrite Hc |].
  now rewrite IH.
Qed.

Lemma match_ticket_here_snoc (label s : string) (c : ascii) :
  Py.is_digit c = false ->
  Py.match_ticket_here label (s +:+ String c "") = Py.match_ticket_here label s.
Proof.
  intros Hc. unfold Py.match_ticket_here.
  destruct (Py.strip_prefix (label +:+ "-") (s +:+ String c "")) as [r|] eqn:E.
  - destruct (strip_prefix_snoc _ _ _ _ E) as [(r' & -> & ->)|[-> ->]].
    + now rewrite (digit_run_snoc _ _ Hc).
    + reflexivity.
  - destruct (Py.strip_prefix (label +:+ "-") s) as [r|] eqn:E'; [| reflexivity].
    rewrite (strip_prefix_snoc_Some _ _ _ c E') in E. discriminate.
Qed.

Lemma re_search_ticket_unfold (label s : string) :
  Py.re_search_ticket label s
  = match Py.match_ticket_here label s with
    | Some m => Some m
    | None =>
        match s with
        | EmptyString => None
        | String _ s' => Py.re_search_ticket label s'
        end
    end.
Proof. now destruct s. Qed.

Lemma re_search_ticket_snoc (label s : string) (c : ascii) :
  Py.is_digit c = false ->
  Py.re_search_ticket label (s +:+ String c "") = Py.re_search_ticket label s.
Proof.
  intros Hc. induction s as [|x s IH].
  - rewrite (re_search_ticket_unfold label ("" +:+ String c "")).
    rewrite (match_ticket_here_snoc label "" c Hc).
    rewrite (re_search_ticket_unfold label "").
    destruct (Py.match_ticket_here label "") as [m|] eqn:E; [reflexivity |].
    simpl. now rewrite E.
  - rewrite (re_search_ticket_unfold label (String x s +:+ String c "")).
    rewrite (match_ticket_here_snoc label (String x s) c Hc).
    rewrite (re_search_ticket_unfold label (String x s)).
    destruct (Py.match_ticket_here label (String x s)); [reflexivity |].
    simpl. exact IH.
Qed.

End ResolverShape.

(** X5.  What the resolver returns is a ticket of the branch.  Whenever it
    returns a ticket, the ticket is one of the labels, a dash and one digit
    or more, and it occurs in the branch name as it is.  When that label is
    on one line, so is the ticket. *)
Theorem resolver_ticket_shape (branch t : string) (labels : list string) :
  _get_ticket_from_branch branch labels = Some t ->
  exists label ds,
    In label labels
    /\ t = label +:+ "-" +:+ ds
    /\ ds <> ""
    /\ all_digits ds = true
    /\ Py.str_in t branch = true
    /\ (one_line label = true -> one_line t = true).
Proof.
  induction labels as [|l labels IH]; simpl; [discriminate |].
  destruct (Py.re_search_ticket l branch) as [m|] eqn:E.
  - intros [= ->]. apply re_search_ticket_Some in E.
    destruct (first_ticket_shape _ _ _ E) as (ds & -> & Hne & Hd & Hin).
    exists l, ds. split; [now left |]. repeat split; try assumption.
    intros Hl. rewrite !one_line_app, Hl. simpl.
    now apply all_digits_one_line.
  - intros H. destruct (IH H) as (label & ds & Hl & Hrest).
    exists label, ds. split; [now right | exact Hrest].
Qed.

Lemma resolver_ticket_shape_witness :
  _get_ticket_from_branch "feature/BAR-9x/FOO" TICKET_LABELS = Some "BAR-9"
  /\ exists label ds,
       In label TICKET_LABELS
       /\ "BAR-9" = label +:+ "-" +:+ ds
       /\ ds <> ""
       /\ all_digits ds = true
       /\ Py.str_in "BAR-9" "feature/BAR-9x/FOO" = true
       /\ (one_line label = true -> one_line "BAR-9" = true).
Proof.
  split; [reflexivity |].
  exact (resolver_ticket_shape "feature/BAR-9x/FOO" "BAR-9" TICKET_LABELS eq_refl).
Defined.

(** X6.  One more character at the end of the branch name changes nothing
    when it is not a digit.  So the line feed that ends the output of git,
    which the hook passes on as it is, does not change the ticket found. *)
Theorem resolver_ignores_trailing_char
    (branch : string) (labels : list string) (c : ascii) :
  Py.is_digit c = false ->
  _get_ticket_from_branch (branch +:+ String c "") labels
  = _get_ticket_from_branch branch labels.
Proof.
  intros Hc. induction labels as [|l labels IH]; simpl; [reflexivity |].
  now rewrite (re_search_ticket_snoc _ _ _ Hc), IH.
Qed.

Lemma resolver_ignores_trailing_char_witness :
  Py.is_digit Py.LF = false
  /\ _get_ticket_from_branch ("FOO-1234" +:+ String Py.LF "") TICKET_LABELS
     = _get_ticket_from_branch "FOO-1234" TICKET_LABELS.
Proof.
  split; [reflexivity |].
  exact (resolver_ignores_trailing_char "FOO-1234" TICKET_LABELS Py.LF eq_refl).
Defined.

(** ** Further properties of the hook *)

Lemma editor_second_pass (ticket content out : string) (src : option string) :
  _add_ticket_to_commit ticket src content = Some out ->
  _add_ticket_to_commit ticket src out = None.
Proof.
  intros H. apply editor_result in H as [-> _].
  unfold _add_ticket_to_commit. now rewrite details_contains_target.
Qed.

(** X7.  The hook is idempotent on the files.  Running it again with the
    same arguments and the same answer of git, on the files the first run
    left, leaves those files as they are: a second run never adds a second
    ticket line. *)
Theorem hook_idempotent (argv : list string) (fs : gmap string string)
    (g : git_outcome) :
  files (snd (run_hook argv (files (snd (run_hook argv fs g))) g))
  = files (snd (run_hook argv fs g)).
Proof.
  unfold run_hook, run_hook_ro.
  hook_cases argv fs g;
    try (hook_simpl; rewrite ?Hmain; reflexivity).
  destruct (_add_ticket_to_commit ticket (main_commit_source argv) content)
    as [new|] eqn:E.
  - rewrite writable_empty. hook_simpl.
    rewrite (run_hook_editor argv _ (<[file := new]> fs) out err file ticket new
               Hfile Hsrc Hout Herr Hticket (lookup_insert_eq _ _ _)).
    now rewrite (editor_second_pass _ _ _ _ E).
  - hook_simpl. rewrite Hmain. reflexivity.
Qed.

(** X8.  The hook touches one file at most.  Every file other than the one
    named by [argv[1]] holds after the run what it held before, and the run
    neither makes nor removes a file: the set of files is the same. *)
Theorem hook_touches_one_file (argv : list string) (fs : gmap string string)
    (g : git_outcome) :
  (forall path,
      nth_error argv 1 <> Some path ->
      files (snd (run_hook argv fs g)) !! path = fs !! path)
  /\ dom (files (snd (run_hook argv fs g))) = dom fs.
Proof.
  unfold run_hook, run_hook_ro.
  hook_cases argv fs g;
    try (hook_simpl; split; reflexivity).
  destruct (_add_ticket_to_commit ticket (main_commit_source argv) content)
    as [new|]; [| hook_simpl; split; reflexivity].
  rewrite writable_empty. hook_simpl. split.
  - intros path Hpath. apply lookup_insert_ne. congruence.
  - rewrite dom_insert_L. apply elem_of_dom_2 in Hread.
    now apply subseteq_union_1_L, singleton_subseteq_l.
Qed.

Lemma hook_touches_one_file_witness :
  nth_error ["prepare-commit-msg"; ".git/COMMIT_EDITMSG"] 1 <> Some "README"
  /\ files (snd (run_hook ["prepare-commit-msg"; ".git/COMMIT_EDITMSG"]
                   (<[ "README" := "FOO-1" ]>
                      {[ ".git/COMMIT_EDITMSG" := "Subject" +:+ Py.NL ]})
                   (Exited 0 (Some ("FOO-1/x" +:+ Py.NL)) (Some ""))))
       !! "README"
     = (<[ "README" := "FOO-1" ]>
          ({[ ".git/COMMIT_EDITMSG" := "Subject" +:+ Py.NL ]} : gmap string string))
       !! "README".
Proof.
  assert (H : nth_error ["prepare-commit-msg"; ".git/COMMIT_EDITMSG"] 1 <> Some "README")
    by discriminate.
  split; [exact H |].
  exact (proj1 (hook_touches_one_file ["prepare-commit-msg"; ".git/COMMIT_EDITMSG"] _ _)
           "README" H).
Defined.


(** X10.  Git is run once or not at all, always with the same command
    line, and it is run exactly when [argv] has an [argv[1]] and the source
    read from [argv] is a supported one. *)
Theorem git_run_iff_supported (argv : list string) (fs : gmap string string)
    (g : git_outcome) :
  (git_runs (trace (snd (run_hook argv fs g))) = [GIT_CMD]
   \/ git_runs (trace (snd (run_hook argv fs g))) = [])
  /\ (git_runs (trace (snd (run_hook argv fs g))) = [GIT_CMD]
      <-> (exists file, nth_error argv 1 = Some file)
          /\ source_in (main_commit_source argv) SUPPORTED_SOURCES = true).
Proof.
  unfold run_hook, run_hook_ro.
  hook_cases argv fs g;
    try (destruct (_add_ticket_to_commit ticket (main_commit_source argv) content);
         rewrite ?writable_empty);
    hook_simpl.
  1-7: (split; [now left |]; split; [intros _ | reflexivity];
        split; [now exists file | reflexivity]).
  - split; [now right |]. split; [discriminate |]. now intros [_ H].
  - split; [now right |]. split; [discriminate |]. now intros [[f H] _].
Qed.

(** X11.  What reaches the error stream.  The hook prints one diagnostic
    or none, and it prints one exactly when git was run, failed, and what it
    wrote decodes.  The interpreter reports one exception or none, and it
    reports none exactly when the exit status is 0.  A run in which git gives
    a branch name and the hook ends well leaves the error stream empty,
    whether or not a ticket is found and the file is written. *)
Theorem error_stream_of_the_hook (ro : gset string) (argv : list string)
    (fs : gmap string string) (g : git_outcome) :
  ((exists msg, diagnostics (trace (snd (run_hook_ro ro argv fs g))) = [msg])
   \/ diagnostics (trace (snd (run_hook_ro ro argv fs g))) = [])
  /\ ((exists msg, diagnostics (trace (snd (run_hook_ro ro argv fs g))) = [msg])
      <-> git_runs (trace (snd (run_hook_ro ro argv fs g))) = [GIT_CMD]
          /\ git_failed g /\ git_decodes g)
  /\ ((exists e, tracebacks (trace (snd (run_hook_ro ro argv fs g))) = [e])
      \/ tracebacks (trace (snd (run_hook_ro ro argv fs g))) = [])
  /\ (tracebacks (trace (snd (run_hook_ro ro argv fs g))) = []
      <-> fst (run_hook_ro ro argv fs g) = 0%Z).
Proof.
  unfold run_hook_ro.
  main_by_cases ro argv fs g;
    try (destruct (_add_ticket_to_commit ticket (main_commit_source argv) content);
         [destruct (bool_decide (file ∈ ro)) |]);
    hook_simpl.
  - (* git could not be started *)
    split; [left; now eexists |].
    split; [split; [now intros _ | intros _; now eexists] |].
    split; [now right | now split].
  - (* the file may not be written *)
    split; [now right |].
    split; [split; [now intros [m H] | intros (_ & H & _); now destruct H] |].
    split; [left; now eexists | split; discriminate].
  - split; [now right |].
    split; [split; [now intros [m H] | intros (_ & H & _); now destruct H] |].
    split; [now right | now split].
  - split; [now right |].
    split; [split; [now intros [m H] | intros (_ & H & _); now destruct H] |].
    split; [now right | now split].
  - (* the file cannot be read *)
    split; [now right |].
    split; [split; [now intros [m H] | intros (_ & H & _); now destruct H] |].
    split; [left; now eexists | split; discriminate].
  - split; [now right |].
    split; [split; [now intros [m H] | intros (_ & H & _); now destruct H] |].
    split; [now right | now split].
  - (* git failed and what it wrote decodes *)
    split; [left; now eexists |].
    split; [split; [now intros _ | intros _; now eexists] |].
    split; [now right | now split].
  - (* what git wrote does not decode *)
    split; [now right |].
    split; [split; [now intros [m H] |] |].
    { intros (_ & _ & [Ho He]). rewrite Ho, He in Hdec. discriminate. }
    split; [left; now eexists | split; discriminate].
  - split; [now right |].
    split; [split; [now intros [m H] | now intros (H & _)] |].
    split; [now right | now split].
  - (* no [argv[1]] *)
    split; [now right |].
    split; [split; [now intros [m H] | now intros (H & _)] |].
    split; [left; now eexists | split; discriminate].
Qed.

(** X12.  The hook writes for an absent source, "message" and "commit"
    only.  For every other source read from [argv] nothing is written and
    the files are as they were.  This holds for "template" too, although it
    is one of the supported sources, for which git is run. *)
Theorem hook_writes_only_for_eligible (argv : list string)
    (fs : gmap string string) (g : git_outcome) :
  (~ eligible (main_commit_source argv) ->
   writes (trace (snd (run_hook argv fs g))) = []
   /\ files (snd (run_hook argv fs g)) = fs)
  /\ (main_commit_source argv = Some "template" ->
      source_in (main_commit_source argv) SUPPORTED_SOURCES = true
      /\ ~ eligible (main_commit_source argv)).
Proof.
  split.
  - intros Hne. unfold run_hook, run_hook_ro.
    hook_cases argv fs g; try (now split).
    replace (_add_ticket_to_commit ticket (main_commit_source argv) content)
      with (@None string); [now split |].
    unfold _add_ticket_to_commit. rewrite (ineligible_gate _ Hne).
    now destruct (Py.str_in _ content).
  - intros ->. split; [reflexivity |]. intros [H|[H|H]]; discriminate.
Qed.

Lemma hook_writes_only_for_eligible_witness :
  ~ eligible (main_commit_source
                ["prepare-commit-msg"; ".git/COMMIT_EDITMSG"; "template"; "HEAD"])
  /\ files (snd (run_hook
                   ["prepare-commit-msg"; ".git/COMMIT_EDITMSG"; "template"; "HEAD"]
                   {[ ".git/COMMIT_EDITMSG" := "Subject" +:+ Py.NL ]}
                   (Exited 0 (Some ("FOO-1/x" +:+ Py.NL)) (Some ""))))
     = {[ ".git/COMMIT_EDITMSG" := "Subject" +:+ Py.NL ]}
  /\ source_in (main_commit_source
                  ["prepare-commit-msg"; ".git/COMMIT_EDITMSG"; "template"; "HEAD"])
       SUPPORTED_SOURCES = true.
Proof.
  assert (H : ~ eligible (main_commit_source
                ["prepare-commit-msg"; ".git/COMMIT_EDITMSG"; "template"; "HEAD"]))
    by (intros [H|[H|H]]; discriminate).
  split; [exact H |]. split.
  - exact (proj2 (proj1 (hook_writes_only_for_eligible _ _ _) H)).
  - exact (proj1 (proj2 (hook_writes_only_for_eligible
                           ["prepare-commit-msg"; ".git/COMMIT_EDITMSG"; "template"; "HEAD"]
                           ∅ (PopenFailed "")) eq_refl)).
Defined.

Section EndToEnd.

(** A ticket found with the labels of the script. *)
Lemma configured_ticket_shape (branch t : string) :
  _get_ticket_from_branch branch TICKET_LABELS = Some t ->
  exists ds,
    (t = "FOO-" +:+ ds \/ t = "BAR-" +:+ ds)
    /\ ds <> ""
    /\ all_digits ds = true
    /\ Py.str_in t branch = true
    /\ one_line t = true.
Proof.
  unfold TICKET_LABELS. simpl.
  destruct (Py.re_search_ticket "FOO" branch) as [m|] eqn:E.
  - intros [= ->]. apply re_search_ticket_Some in E.
    destruct (first_ticket_shape _ _ _ E) as (ds & -> & Hne & Hd & Hin).
    exists ds. split; [now left |]. repeat split; try assumption.
    simpl. now apply all_digits_one_line.
  - destruct (Py.re_search_ticket "BAR" branch) as [m|] eqn:E'; [| discriminate].
    intros [= ->]. apply re_search_ticket_Some in E'.
    destruct (first_ticket_shape _ _ _ E') as (ds & -> & Hne & Hd & Hin).
    exists ds. split; [now right |]. repeat split; try assumption.
    simpl. now apply all_digits_one_line.
Qed.

Lemma editor_line (ticket content out : string) (src : option string) :
  _add_ticket_to_commit ticket src content = Some out ->
  one_line ticket = true ->
  In (TICKET_PREFIX +:+ ticket) (split_lines out).
Proof.
  intros H Hone.
  destruct (editor_shape _ _ _ _ H) as (a & b & extra & _ & -> & _).
  rewrite split_lines_app, split_lines_app.
  rewrite (split_lines_one_line (TICKET_PREFIX +:+ ticket))
    by now rewrite one_line_prefix.
  apply in_or_app. right. now left.
Qed.

End EndToEnd.

(** X13.  What the hook writes is right.  Whenever a run writes a content
    to a file, the file is the one named by [argv[1]] and it could be read;
    git gave a branch name in which a ticket occurs that is FOO or BAR, a
    dash and one digit or more; the old content did not hold the target line
    for that ticket; and the content written has that target line as one of
    its lines. *)
Theorem hook_writes_ticket_line (argv : list string) (fs : gmap string string)
    (g : git_outcome) (file out : string) :
  In (file, out) (writes (trace (snd (run_hook argv fs g)))) ->
  exists content ticket ds stdout stderr,
    nth_error argv 1 = Some file
    /\ fs !! file = Some content
    /\ g = Exited 0 stdout stderr
    /\ Py.str_in ticket (text_of stdout) = true
    /\ (ticket = "FOO-" +:+ ds \/ ticket = "BAR-" +:+ ds)
    /\ ds <> ""
    /\ all_digits ds = true
    /\ Py.str_in (TICKET_PREFIX +:+ ticket) content = false
    /\ In (TICKET_PREFIX +:+ ticket) (split_lines out).
Proof.
  unfold run_hook, run_hook_ro.
  hook_cases argv fs g;
    try (destruct (_add_ticket_to_commit ticket (main_commit_source argv) content)
           as [new|] eqn:E;
         rewrite ?writable_empty);
    hook_simpl; simpl; try tauto.
  intros [[= <- <-]|[]].
  destruct (configured_ticket_shape _ _ Hticket) as (ds & Ht & Hne & Hd & Hin & Hone).
  exists content, ticket, ds, out0, err.
  repeat split; try assumption.
  - now apply editor_result in E.
  - exact (editor_line _ _ _ _ E Hone).
Qed.

Lemma hook_writes_ticket_line_witness :
  In (".git/COMMIT_EDITMSG",
      "Fix bug" +:+ Py.NL +:+ Py.NL +:+ "Ticket: BAR-9" +:+ Py.NL)
     (writes (trace (snd (run_hook ["prepare-commit-msg"; ".git/COMMIT_EDITMSG"]
                           {[ ".git/COMMIT_EDITMSG" := "Fix bug" +:+ Py.NL ]}
                           (Exited 0 (Some ("feature/BAR-9/x" +:+ Py.NL)) (Some ""))))))
  /\ exists content ticket ds stdout stderr,
       nth_error ["prepare-commit-msg"; ".git/COMMIT_EDITMSG"] 1
       = Some ".git/COMMIT_EDITMSG"
       /\ ({[ ".git/COMMIT_EDITMSG" := "Fix bug" +:+ Py.NL ]} : gmap string string)
            !! ".git/COMMIT_EDITMSG" = Some content
       /\ Exited 0 (Some ("feature/BAR-9/x" +:+ Py.NL)) (Some "") = Exited 0 stdout stderr
       /\ Py.str_in ticket (text_of stdout) = true
       /\ (ticket = "FOO-" +:+ ds \/ ticket = "BAR-" +:+ ds)
       /\ ds <> ""
       /\ all_digits ds = true
       /\ Py.str_in (TICKET_PREFIX +:+ ticket) content = false
       /\ In (TICKET_PREFIX +:+ ticket)
            (split_lines ("Fix bug" +:+ Py.NL +:+ Py.NL +:+ "Ticket: BAR-9" +:+ Py.NL)).
Proof.
  assert (H : In (".git/COMMIT_EDITMSG",
                  "Fix bug" +:+ Py.NL +:+ Py.NL +:+ "Ticket: BAR-9" +:+ Py.NL)
                 (writes (trace (snd (run_hook
                    ["prepare-commit-msg"; ".git/COMMIT_EDITMSG"]
                    {[ ".git/COMMIT_EDITMSG" := "Fix bug" +:+ Py.NL ]}
                    (Exited 0 (Some ("feature/BAR-9/x" +:+ Py.NL)) (Some "")))))))
    by (vm_compute; left; reflexivity).
  split; [exact H |].
  exact (hook_writes_ticket_line _ _ _ _ _ H).
Defined.


